(** * Verification of the banks ETL script (src/banks_project.py)

    A shallow embedding of [extract], [transform], [load_to_csv] and
    [load_to_db].  A pandas DataFrame is a list of named, typed columns kept
    in a heap: Python passes DataFrames by reference, and [DataFrame.assign]
    copies before it writes.  Effects (heap, log file, CSV files, SQLite
    databases, HTTP) are threaded through a state and exception monad.
    Floats are IEEE binary64 floats (Rocq's primitive floats), so the
    arithmetic of [transform] is the one numpy performs. *)

From Stdlib Require Import ZArith QArith Qabs List String Ascii Floats.
From stdpp Require Import base gmap strings list pretty.

Import ListNotations.
Set Warnings "-inexact-float".
Local Open Scope string_scope.

(** ** Numbers *)

(** numpy's [rint]: round to the nearest integer, ties to even.  For
    |x| < 2^52, adding and subtracting 2^52 rounds to an integer in the
    default (nearest-even) mode; larger floats are already integers. *)
Definition two52 : float := 4503599627370496%float.

Definition rint (x : float) : float :=
  if (abs x <? two52)%float then
    let y := ((abs x + two52) - two52)%float in
    if get_sign x then (- y)%float else y
  else x.

(** [round(s, 2)] on a float64 Series is numpy's [around(s, 2)]:
    [rint(x * 10.0**2) / 10.0**2] element by element. *)
Definition np_round2 (x : float) : float := (rint (x * 100) / 100)%float.

(** An int64 converted to float64 (rounded to nearest). *)
Definition int64_to_float (z : Z) : float :=
  if (z =? - 9223372036854775808)%Z then (- 9223372036854775808)%float
  else if (z <? 0)%Z then (- of_uint63 (Uint63.of_Z (- z)))%float
  else of_uint63 (Uint63.of_Z z).

(** ** Python exceptions *)

Inductive exn :=
| KeyError (key : string)
| TypeError (msg : string)
| ValueError (msg : string)
| IndexError
| HTTPError (status : Z)
| ConnectionError (url : string)
| OSError (path : string).

(** ** DataFrames *)

(** A column as pandas stores it: int64, float64 or object (text). *)
Inductive column :=
| ColInt (v : list Z)
| ColFloat (v : list float)
| ColObj (v : list string).

Definition col_len (c : column) : nat :=
  match c with
  | ColInt v => length v
  | ColFloat v => length v
  | ColObj v => length v
  end.

(** The numeric values of a column, as float64. *)
Definition col_floats (c : column) : option (list float) :=
  match c with
  | ColInt v => Some (map int64_to_float v)
  | ColFloat v => Some v
  | ColObj _ => None
  end.

(** A DataFrame: its columns, in order, with their labels. *)
Record frame := mkFrame { columns : list (string * column) }.

Fixpoint lookup_col (cols : list (string * column)) (k : string) : option column :=
  match cols with
  | [] => None
  | (k', c) :: r => if String.eqb k k' then Some c else lookup_col r k
  end.

(** [df[k] = v]: replace column [k] in place, or append it. *)
Fixpoint set_col (cols : list (string * column)) (k : string) (v : column)
  : list (string * column) :=
  match cols with
  | [] => [(k, v)]
  | (k', c) :: r => if String.eqb k k' then (k, v) :: r else (k', c) :: set_col r k v
  end.

Definition nrows (df : frame) : nat :=
  match columns df with
  | [] => 0
  | (_, c) :: _ => col_len c
  end.

(** All columns of a DataFrame share its index, hence its length. *)
Definition wf_frame (df : frame) : Prop :=
  Forall (fun kc => col_len kc.2 = nrows df) (columns df).

(** ** Effects: heap, log file, files, databases, network *)

Definition loc := positive.

(** An attribute of an HTML tag as BeautifulSoup stores it: [class] is
    multi-valued (a list of words), the others are strings. *)
Inductive attr_value := AVStr (s : string) | AVList (l : list string).

(** An HTML element of the parsed document, with the text of its cells. *)
Record element := mkElement {
  el_name : string;
  el_attrs : list (string * attr_value);
  el_cells : list (list string) }.

Record response := mkResponse { status_code : Z; resp_doc : list element }.

(** A SQLite database file: its tables by name. *)
Abbreviation database := (gmap string frame).

Record state := mkState {
  heap : gmap loc frame;              (** the Python objects: DataFrames *)
  log : list string;                  (** code_log.txt, oldest line first *)
  files : gmap string string;         (** files written, by path *)
  dbs : gmap string database;         (** SQLite database files, by path *)
  web : string -> option response;   (** what [requests.get] receives *)
  can_write : string -> bool }.       (** whether a file may be created or
                                          overwritten at a path: its
                                          directory exists and is writable *)

Inductive result (A : Type) := Ok (a : A) | Err (e : exn).
Arguments Ok {A} a.
Arguments Err {A} e.

Definition M (A : Type) := state -> result A * state.

Definition ret {A} (a : A) : M A := fun s => (Ok a, s).
Definition bind {A B} (m : M A) (k : A -> M B) : M B :=
  fun s => match m s with
           | (Ok a, s') => k a s'
           | (Err e, s') => (Err e, s')
           end.
Definition raise {A} (e : exn) : M A := fun s => (Err e, s).
Definition lift {A} (r : result A) : M A := fun s => (r, s).

Notation "'let*' x ':=' m 'in' k" := (bind m (fun x => k))
  (at level 200, x pattern, m at level 100, k at level 200).

Definition set_heap (h : gmap loc frame) (s : state) : state :=
  mkState h (log s) (files s) (dbs s) (web s) (can_write s).
Definition set_log (l : list string) (s : state) : state :=
  mkState (heap s) l (files s) (dbs s) (web s) (can_write s).
Definition set_files (f : gmap string string) (s : state) : state :=
  mkState (heap s) (log s) f (dbs s) (web s) (can_write s).
Definition set_dbs (d : gmap string database) (s : state) : state :=
  mkState (heap s) (log s) (files s) d (web s) (can_write s).

(** Dereference a DataFrame.  A dangling reference cannot arise in Python;
    it is reported as a [TypeError] here only to keep [deref] total. *)
Definition deref (l : loc) : M frame :=
  fun s => match heap s !! l with
           | Some df => (Ok df, s)
           | None => (Err (TypeError "dangling reference"), s)
           end.

(** A new object. *)
Definition alloc (df : frame) : M loc :=
  fun s => let l := fresh (dom (heap s)) in (Ok l, set_heap (<[l := df]> (heap s)) s).

(** Overwrite the object at [l]. *)
Definition store (l : loc) (df : frame) : M unit :=
  fun s => (Ok tt, set_heap (<[l := df]> (heap s)) s).

(** [log_progress(message)]: one line appended to code_log.txt (the
    timestamp is not modelled). *)
Definition log_progress (message : string) : M unit :=
  fun s => (Ok tt, set_log (log s ++ [message]) s).

(** ** Series and DataFrame operations used by [transform] *)

(** [x[k]] on a DataFrame. *)
Definition getitem (x : frame) (k : string) : result column :=
  match lookup_col (columns x) k with
  | Some c => Ok c
  | None => Err (KeyError k)
  end.

(** [d[k]] on a dict. *)
Definition dict_get (d : gmap string float) (k : string) : result float :=
  match d !! k with
  | Some r => Ok r
  | None => Err (KeyError k)
  end.

(** [s * r] for a Series [s] and a float [r]: int64 and float64 columns
    give float64; a text column raises, as [str * float] does in Python. *)
Definition col_mul (c : column) (r : float) : result column :=
  match c with
  | ColInt v => Ok (ColFloat (map (fun z => (int64_to_float z * r)%float) v))
  | ColFloat v => Ok (ColFloat (map (fun x => (x * r)%float) v))
  | ColObj [] => Ok (ColObj [])
  | ColObj _ => Err (TypeError "can't multiply sequence by non-int of type 'float'")
  end.

(** [round(s, 2)] for a Series: float64 columns are rounded by numpy;
    integer and object columns come back unchanged. *)
Definition col_round2 (c : column) : column :=
  match c with
  | ColFloat v => ColFloat (map np_round2 v)
  | c => c
  end.

(** [data[k] = v] on the DataFrame object at [data]. *)
Definition setitem (data : loc) (k : string) (v : column) : M unit :=
  let* x := deref data in
  store data (mkFrame (set_col (columns x) k v)).

(** The body of [DataFrame.assign]:
    [for k, v in kwargs.items(): data[k] = v(data)]. *)
Fixpoint assign_items (data : loc) (kwargs : list (string * (frame -> M column))) : M unit :=
  match kwargs with
  | [] => ret tt
  | (k, v) :: rest =>
      let* x := deref data in
      let* col := v x in
      let* _ := setitem data k col in
      assign_items data rest
  end.

(** [df.assign(...)] with keyword arguments [kwargs]: [data = self.copy()], then the items, then
    [return data]. *)
Definition assign (df : loc) (kwargs : list (string * (frame -> M column))) : M loc :=
  let* self := deref df in
  let* data := alloc self in
  let* _ := assign_items data kwargs in
  ret data.

Definition MC_USD : string := "Market cap (US$ billion)".

(** [lambda x: round(x["Market cap (US$ billion)"] * rates_dict[cur], 2)] *)
Definition convert (rates_dict : gmap string float) (cur : string) (x : frame) : M column :=
  let* mc := lift (getitem x MC_USD) in
  let* r := lift (dict_get rates_dict cur) in
  let* prod := lift (col_mul mc r) in
  ret (col_round2 prod).

(** [transform(df, csv_path)] from the point where [rates_dict] has been
    read from the exchange-rate file (line 63): the rate mapping is the
    argument [rates_dict]. *)
Definition transform (df : loc) (rates_dict : gmap string float) : M loc :=
  let* df := assign df [("MC_GBP_Billion", convert rates_dict "GBP");
                        ("MC_EUR_Billion", convert rates_dict "EUR");
                        ("MC_INR_Billion", convert rates_dict "INR")] in
  let* _ := log_progress "Data transformation complete. Initiating Loading process" in
  ret df.

Definition derived_cols : list string := ["MC_GBP_Billion"; "MC_EUR_Billion"; "MC_INR_Billion"].

(** ** [extract], [load_to_csv], [load_to_db] *)

Definition default_attribs : list (string * string) := [("class", "wikitable")].

(** [if not table_attribs: table_attribs = {"class": "wikitable"}]:
    [None] and the empty dict are both falsy. *)
Definition resolve_attribs (table_attribs : option (list (string * string)))
  : list (string * string) :=
  match table_attribs with
  | None | Some [] => default_attribs
  | Some a => a
  end.

(** [requests.get(url)]: the response, or a connection failure. *)
Definition requests_get (url : string) : M response :=
  fun s => match web s url with
           | Some r => (Ok r, s)
           | None => (Err (ConnectionError url), s)
           end.

(** [response.raise_for_status()] *)
Definition raise_for_status (r : response) : M unit :=
  if ((400 <=? status_code r) && (status_code r <? 600))%Z
  then raise (HTTPError (status_code r)) else ret tt.

Fixpoint attr_lookup (attrs : list (string * attr_value)) (k : string) : option attr_value :=
  match attrs with
  | [] => None
  | (k', v) :: r => if String.eqb k k' then Some v else attr_lookup r k
  end.

(** BeautifulSoup's test of one attribute against a string: a
    multi-valued attribute matches one of its words or its whole value. *)
Definition attr_matches (want : string) (v : attr_value) : bool :=
  match v with
  | AVStr s => String.eqb s want
  | AVList l => existsb (String.eqb want) l || String.eqb (String.concat " " l) want
  end.

Definition tag_matches (name : string) (attrs : list (string * string)) (e : element) : bool :=
  String.eqb (el_name e) name &&
  forallb (fun kw => match attr_lookup (el_attrs e) kw.1 with
                     | Some v => attr_matches kw.2 v
                     | None => false
                     end) attrs.

(** [soup.find(name, attrs=attrs)]: the first matching element of the
    document (its elements in document order), or [None]. *)
Definition soup_find (name : string) (attrs : list (string * string)) (doc : list element)
  : option element :=
  List.find (tag_matches name attrs) doc.

(** [str(table)]: the markup of a tag, or the text "None". *)
Inductive markup := TagMarkup (e : element) | TextMarkup (s : string).

Definition str_of_find (t : option element) : markup :=
  match t with
  | Some e => TagMarkup e
  | None => TextMarkup "None"
  end.

(** [lst[0]] *)
Definition getindex0 {A} (l : list A) : result A :=
  match l with
  | x :: _ => Ok x
  | [] => Err IndexError
  end.

(** [Path(__file__).parent.parent], the project directory. *)
Definition BASE_PATH : string := ".".
Definition DEFAULT_CSV : string := BASE_PATH ++ "/data/final_data.csv".

(** CSV characters. *)
Definition nl : ascii := "010"%char.
Definition cr : ascii := "013"%char.
Definition dq : ascii := "034"%char.
Definition comma : ascii := ","%char.

Section PandasIO.

(** The pandas parser of one table's markup ([pd.read_html] on the
    markup of a tag), and Python's [repr] of a float as [to_csv] writes
    it: library code, left abstract. *)
Variable read_table : element -> result (list frame).
Variable float_repr : float -> string.

(** [pd.read_html(io)]: text with no table in it raises
    [ValueError("No tables found")]. *)
Definition read_html (m : markup) : result (list frame) :=
  match m with
  | TagMarkup e => read_table e
  | TextMarkup _ => Err (ValueError "No tables found")
  end.

Definition extract (url : string) (table_attribs : option (list (string * string))) : M loc :=
  let table_attribs := resolve_attribs table_attribs in
  let* response := requests_get url in
  let* _ := raise_for_status response in
  let soup := resp_doc response in
  let table := soup_find "table" table_attribs soup in
  let* _ := log_progress "Data extraction complete. Initiating Transformation process" in
  let* frames := lift (read_html (str_of_find table)) in
  let* df := lift (getindex0 frames) in
  alloc df.

(** The text of each cell of a column as [to_csv] writes it: ints in
    decimal, NaN as the empty string ([na_rep]), strings as they are. *)
Definition col_texts (c : column) : list (list ascii) :=
  match c with
  | ColInt v => map (fun z => list_ascii_of_string (pretty z)) v
  | ColFloat v => map (fun f => if is_nan f then [] else list_ascii_of_string (float_repr f)) v
  | ColObj v => map list_ascii_of_string v
  end.

Definition cell_text (c : column) (i : nat) : list ascii := nth i (col_texts c) [].

(** The records of the file body: one per row, one field per column. *)
Definition rows_text (df : frame) : list (list (list ascii)) :=
  map (fun i => map (fun kc => cell_text kc.2 i) (columns df)) (seq 0 (nrows df)).

Definition header_text (df : frame) : list (list ascii) :=
  map (fun kc => list_ascii_of_string kc.1) (columns df).

End PandasIO.

(** Python's csv writer, [QUOTE_MINIMAL]: a field with a delimiter, a
    quote or a line break is quoted, its quotes doubled. *)
Definition needs_quote (f : list ascii) : bool :=
  existsb (fun c => Ascii.eqb c comma || Ascii.eqb c dq || Ascii.eqb c nl || Ascii.eqb c cr) f.

Fixpoint escape (f : list ascii) : list ascii :=
  match f with
  | [] => []
  | c :: r => if Ascii.eqb c dq then dq :: dq :: escape r else c :: escape r
  end.

Definition quote_field (f : list ascii) : list ascii :=
  if needs_quote f then dq :: escape f ++ [dq] else f.

Fixpoint join_fields (fields : list (list ascii)) : list ascii :=
  match fields with
  | [] => []
  | [f] => quote_field f
  | f :: r => quote_field f ++ comma :: join_fields r
  end.

(** [writer.writerow(fields)], line terminator "\n"; a record made of
    one empty field is written as a quoted empty field. *)
Definition write_record (fields : list (list ascii)) : list ascii :=
  match fields with
  | [[]] => [dq; dq; nl]
  | _ => join_fields fields ++ [nl]
  end.

(** [df.to_csv(path, index=False)]: the header record, then one record
    per row, no index column. *)
Definition to_csv_text (float_repr : float -> string) (df : frame) : list ascii :=
  write_record (header_text df) ++ concat (map write_record (rows_text float_repr df)).

(** [if not output_path: output_path = BASE_PATH / "data" / "final_data.csv"]:
    [None] and the empty path are both falsy. *)
Definition resolve_output_path (output_path : option string) : string :=
  match output_path with
  | None | Some EmptyString => DEFAULT_CSV
  | Some p => p
  end.

(** [x.to_csv(path, index=False)]: the file is created or overwritten
    with the CSV text; [OSError] when it cannot be opened for writing
    (its directory missing or not writable). *)
Definition to_csv (float_repr : float -> string) (x : frame) (path : string) : M unit :=
  fun s => if can_write s path
           then (Ok tt, set_files (<[path := string_of_list_ascii (to_csv_text float_repr x)]> (files s)) s)
           else (Err (OSError path), s).

Definition load_to_csv (float_repr : float -> string) (df : loc) (output_path : option string)
  : M unit :=
  let output_path := resolve_output_path output_path in
  let* x := deref df in
  let* _ := to_csv float_repr x output_path in
  log_progress "Data saved to CSV file".

(** Reading CSV text back (Python's csv reader, excel dialect, for a file
    whose lines end in "\n"): the records, each a list of fields. *)
Inductive pstate := StartRecord | StartField | InField | InQuoted | QuoteInQuoted.

Fixpoint parse_go (st : pstate) (field : list ascii) (record : list (list ascii))
  (input : list ascii) : list (list (list ascii)) :=
  match input with
  | [] => match st with StartRecord => [] | _ => [app record [field]] end
  | c :: rest =>
      match st with
      | StartRecord =>
          if Ascii.eqb c nl then [] :: parse_go StartRecord [] [] rest
          else if Ascii.eqb c dq then parse_go InQuoted [] [] rest
          else if Ascii.eqb c comma then parse_go StartField [] [[]] rest
          else parse_go InField [c] [] rest
      | StartField =>
          if Ascii.eqb c nl then (app record [[]]) :: parse_go StartRecord [] [] rest
          else if Ascii.eqb c dq then parse_go InQuoted [] record rest
          else if Ascii.eqb c comma then parse_go StartField [] (app record [[]]) rest
          else parse_go InField [c] record rest
      | InField =>
          if Ascii.eqb c nl then (app record [field]) :: parse_go StartRecord [] [] rest
          else if Ascii.eqb c comma then parse_go StartField [] (app record [field]) rest
          else parse_go InField (app field [c]) record rest
      | InQuoted =>
          if Ascii.eqb c dq then parse_go QuoteInQuoted field record rest
          else parse_go InQuoted (app field [c]) record rest
      | QuoteInQuoted =>
          if Ascii.eqb c dq then parse_go InQuoted (app field [c]) record rest
          else if Ascii.eqb c comma then parse_go StartField [] (app record [field]) rest
          else if Ascii.eqb c nl then (app record [field]) :: parse_go StartRecord [] [] rest
          else parse_go InField (app field [c]) record rest
      end
  end.

Definition read_csv_records (text : string) : list (list (list ascii)) :=
  parse_go StartRecord [] [] (list_ascii_of_string text).

(** [df.to_sql(name, con, if_exists="replace", index=False)]: the table
    [name] is dropped if it exists, created anew and filled with the rows
    of [x] in order. *)
Definition to_sql (x : frame) (name : string) (con : string) : M unit :=
  fun s => let db := default ∅ (dbs s !! con) in
           (Ok tt, set_dbs (<[con := <[name := x]> (delete name db)]> (dbs s)) s).

(** [if not table_name: table_name = "Largest_banks"]: [None] and the
    empty string are both falsy. *)
Definition resolve_table_name (table_name : option string) : string :=
  match table_name with
  | None | Some EmptyString => "Largest_banks"
  | Some n => n
  end.

(** [if not sql_connection: sql_connection = sqlite3.connect("Banks.db")];
    a connection is named by its database file, and a connection object is
    always truthy. *)
Definition resolve_connection (sql_connection : option string) : string :=
  match sql_connection with None => "Banks.db" | Some c => c end.

Definition load_to_db (df : loc) (sql_connection : option string) (table_name : option string)
  : M unit :=
  let table_name := resolve_table_name table_name in
  let sql_connection := resolve_connection sql_connection in
  let* _ := log_progress "SQL Connection initiated" in
  let* x := deref df in
  let* _ := to_sql x table_name sql_connection in
  log_progress "Data loaded to Database as a table, Executing queries".

(** ** [run_query] and the script *)

(** [sqlite3.connect(name)]: the database file is created, empty, if it
    does not exist; a connection is named by its file. *)
Definition connect (name : string) : M string :=
  fun s => (Ok name, set_dbs (match dbs s !! name with
                              | Some _ => dbs s
                              | None => <[name := ∅]> (dbs s)
                              end) s).

Section Script.

(** SQLite's [cursor.execute(statement)] followed by [fetchall()] on a
    database: the database after the statement and the rows fetched, or
    the error SQLite raises.  Library code, left abstract. *)
Variable sql_execute : database -> string -> result (database * list (list string)).

(** [run_query(query_statement, sql_connection)].  The two [print] calls
    write to standard output, which is not part of the modelled state. *)
Definition run_query (query_statement : string) (sql_connection : option string) : M unit :=
  let* sql_connection := match sql_connection with
                         | Some c => ret c
                         | None => connect "Banks.db"
                         end in
  let* query_result :=
    (fun s => let db := default ∅ (dbs s !! sql_connection) in
              match sql_execute db query_statement with
              | Ok (db', rows) => (Ok rows, set_dbs (<[sql_connection := db']> (dbs s)) s)
              | Err e => (Err e, s)
              end) in
  ret tt.

Variable read_table : element -> result (list frame).
Variable float_repr : float -> string.

(** The rate mapping [transform] reads from data/exchange_rate.csv
    (lines 57-63, with pandas' CSV parser). *)
Variable exchange_rates : gmap string float.

Definition url_main : string :=
  "https://web.archive.org/web/20230908091635/https://en.wikipedia.org/wiki/List_of_largest_banks".

Definition query_1 : string := "SELECT * FROM Largest_banks".
Definition query_2 : string := "SELECT AVG(MC_GBP_Billion) FROM Largest_banks".
Definition query_3 : string :=
  "SELECT " ++ String dq ("Bank name" ++ String dq " from Largest_banks LIMIT 5").
Definition query_4 : string := "PRAGMA table_info(Largest_banks);".

(** The [if __name__ == "__main__":] block; an uncaught exception ends the
    script.  [sql_connection.close()] changes nothing modelled. *)
Definition main : M unit :=
  let* sql_connection := connect "Banks.db" in
  let* _ := log_progress "Preliminaries complete. Initiating ETL process" in
  let* df := extract read_table url_main None in
  let* df := transform df exchange_rates in
  let* _ := load_to_csv float_repr df None in
  let* _ := load_to_db df None None in
  let* _ := run_query query_1 (Some sql_connection) in
  let* _ := run_query query_2 (Some sql_connection) in
  let* _ := run_query query_3 (Some sql_connection) in
  let* _ := run_query query_4 (Some sql_connection) in
  let* _ := log_progress "Process Complete" in
  log_progress "Server Connection closed".

End Script.

Definition main_queries : list string := [query_1; query_2; query_3; query_4].

Definition main_log_lines : list string :=
  ["Preliminaries complete. Initiating ETL process";
   "Data extraction complete. Initiating Transformation process";
   "Data transformation complete. Initiating Loading process";
   "Data saved to CSV file";
   "SQL Connection initiated";
   "Data loaded to Database as a table, Executing queries";
   "Process Complete";
   "Server Connection closed"].

(** ** Decimal ties *)

(** [200 * m * 2^e], the value of the float [m * 2^e] times 200, when it is
    an integer.  A float lies exactly halfway between two 2-decimal values
    when this is an odd integer [N]: the neighbours are [(N-1)/200] and
    [(N+1)/200]. *)
Definition value200 (m : positive) (e : Z) : option Z :=
  if (0 <=? e)%Z then Some (200 * Zpos m * 2 ^ e)%Z
  else let d := (2 ^ (- e))%Z in
       if ((200 * Zpos m) mod d =? 0)%Z then Some ((200 * Zpos m) / d)%Z else None.

(** For an odd [N], the one of [(N-1)/2] and [(N+1)/2] that is even: the
    neighbour, in hundredths, whose last digit is even. *)
Definition even_hundredths (N : Z) : Z :=
  let k := (N / 2)%Z in if Z.even k then k else (k + 1)%Z.

(** The exact value of a finite float, as a rational. *)
Definition float_Q (x : float) : option Q :=
  match Prim2SF x with
  | S754_zero _ => Some 0%Q
  | S754_finite s m e =>
      let v := if (0 <=? e)%Z then inject_Z (Zpos m * 2 ^ e) else Qmake (Zpos m) (Z.to_pos (2 ^ (- e))) in
      Some (if s then Qopp v else v)
  | _ => None
  end.

(** ** Concrete inputs *)

(** The spec's scenario: one bank "X" with a market cap of 100 (int64). *)
Definition frame_X : frame :=
  mkFrame [("Bank name", ColObj ["X"]); (MC_USD, ColInt [100%Z])].

Definition rates_X : gmap string float :=
  <["GBP" := 0.8%float]> (<["EUR" := 0.93%float]> (<["INR" := 82.95%float]> ∅)).

(** The location of the input DataFrame. *)
Definition loc1 : loc := 1%positive.

Definition no_web : string -> option response := fun _ => None.

(** A fresh interpreter with the DataFrame [df] bound at location 1. *)
Definition state_with (df : frame) : state :=
  mkState {[loc1 := df]} [] ∅ ∅ no_web (fun _ => true).

(** A rate mapping with GBP only. *)
Definition rates_GBP_only : gmap string float := <["GBP" := 0.8%float]> ∅.

(** Some rendering of floats, for concrete runs of [load_to_csv]. *)
Definition repr_stub (f : float) : string := "0.0".

(** A bank whose market cap is the tie 393514609659976.125 (a float),
    and rates of 1.0, so that the product is the market cap itself. *)
Definition big_tie : float := 393514609659976.125%float.

Definition frame_big : frame :=
  mkFrame [("Bank name", ColObj ["B"]); (MC_USD, ColFloat [big_tie])].

Definition rates_one : gmap string float :=
  <["GBP" := 1%float]> (<["EUR" := 1%float]> (<["INR" := 1%float]> ∅)).

(** A page whose only table is not a "wikitable". *)
Definition page_without_table : response :=
  mkResponse 200 [mkElement "table" [("class", AVList ["infobox"])] []].

(** An interpreter whose every request receives [r]. *)
Definition state_page (r : response) : state := mkState ∅ [] ∅ ∅ (fun _ => Some r) (fun _ => true).

(** A page with an infobox table, then a "wikitable sortable" table, then
    another wikitable. *)
Definition wiki_table : element :=
  mkElement "table" [("class", AVList ["wikitable"; "sortable"])] [["X"; "100"]].

Definition page_with_tables : response :=
  mkResponse 200 [mkElement "table" [("class", AVList ["infobox"])] [];
                  wiki_table;
                  mkElement "table" [("class", AVList ["wikitable"])] []].

(** A parser of tables that reads every table as [frame_X]. *)
Definition read_X (e : element) : result (list frame) := Ok [frame_X].

(** An SQLite that answers every statement with no rows and no change. *)
Definition sql_readonly (db : database) (q : string) : result (database * list (list string)) :=
  Ok (db, []).

(** A frame with a text market-cap column (as a table parsed without
    numeric conversion). *)
Definition frame_text : frame :=
  mkFrame [("Bank name", ColObj ["X"]); (MC_USD, ColObj ["1,234.5"])].

Definition frame_no_mc : frame := mkFrame [("Bank name", ColObj ["X"])].

(** A page answered with status 404. *)
Definition page_404 : response := mkResponse 404 [].

(** An interpreter whose request for the script's URL receives
    [page_with_tables], every other request failing. *)
Definition web_main (u : string) : option response :=
  if String.eqb u url_main then Some page_with_tables else None.

Definition state_main : state := mkState ∅ [] ∅ ∅ web_main (fun _ => true).

(** The DataFrame [df] at location 1, on a file system where no file may
    be written (e.g. a missing ./data directory). *)
Definition state_no_write (df : frame) : state :=
  mkState {[loc1 := df]} [] ∅ ∅ no_web (fun _ => false).

(** ** Lemmas on the monad *)

Lemma bind_Ok {A B} (m : M A) (k : A -> M B) s a s' :
  m s = (Ok a, s') -> bind m k s = k a s'.
Proof. intros H. unfold bind. by rewrite H. Qed.

Lemma bind_Err {A B} (m : M A) (k : A -> M B) s e s' :
  m s = (Err e, s') -> bind m k s = (Err e, s').
Proof. intros H. unfold bind. by rewrite H. Qed.

Lemma deref_Ok s l df : heap s !! l = Some df -> deref l s = (Ok df, s).
Proof. intros H. unfold deref. by rewrite H. Qed.

Lemma heap_set_heap h s : heap (set_heap h s) = h.
Proof. reflexivity. Qed.

Lemma heap_set_log g s : heap (set_log g s) = heap s.
Proof. reflexivity. Qed.

(** [convert] only reads: it leaves the state as it is. *)
Lemma convert_pure rates_dict cur x s : snd (convert rates_dict cur x s) = s.
Proof.
  unfold convert, bind, lift, ret.
  destruct (getitem x MC_USD); [|done].
  destruct (dict_get rates_dict cur); [|done].
  by destruct (col_mul _ _).
Qed.

Lemma convert_Ok rates_dict cur x s mc v r :
  lookup_col (columns x) MC_USD = Some mc -> col_floats mc = Some v ->
  rates_dict !! cur = Some r ->
  convert rates_dict cur x s = (Ok (ColFloat (map (fun y => np_round2 (y * r)%float) v)), s).
Proof.
  intros Hmc Hv Hr. unfold convert, bind, lift, ret, getitem, dict_get.
  rewrite Hmc, Hr.
  destruct mc as [w|w|w]; simpl in Hv; inversion Hv; subst; simpl.
  - by rewrite !map_map.
  - by rewrite map_map.
Qed.

(** ** Lemmas on columns *)

Lemma lookup_set_col_eq cols k v : lookup_col (set_col cols k v) k = Some v.
Proof.
  induction cols as [|[k' c] r IH]; simpl.
  - by rewrite String.eqb_refl.
  - destruct (String.eqb k k') eqn:E; simpl; [by rewrite String.eqb_refl|].
    by rewrite E.
Qed.

Lemma lookup_set_col_ne cols k k' v :
  k' <> k -> lookup_col (set_col cols k v) k' = lookup_col cols k'.
Proof.
  intros Hne. induction cols as [|[k0 c] r IH]; simpl.
  - apply String.eqb_neq in Hne. by rewrite Hne.
  - destruct (String.eqb k k0) eqn:E; simpl.
    + apply String.eqb_eq in E. subst k0.
      apply String.eqb_neq in Hne. by rewrite Hne.
    + by destruct (String.eqb k' k0).
Qed.

Lemma set_col_labels_prefix cols k v :
  map fst cols `prefix_of` map fst (set_col cols k v).
Proof.
  induction cols as [|[k0 c] r IH]; simpl.
  - apply prefix_nil.
  - destruct (String.eqb k k0) eqn:E; simpl.
    + apply String.eqb_eq in E. subst k0. done.
    + by apply prefix_cons.
Qed.

Lemma set_col_Forall (P : string * column -> Prop) cols k v :
  Forall P cols -> P (k, v) -> Forall P (set_col cols k v).
Proof.
  intros HF Hkv. induction HF as [|[k0 c] r Hc HF IH]; simpl.
  - by constructor.
  - destruct (String.eqb k k0); by constructor.
Qed.

Lemma nrows_set_col df k v :
  columns df <> [] -> col_len v = nrows df ->
  nrows (mkFrame (set_col (columns df) k v)) = nrows df.
Proof.
  destruct df as [[|[k0 c] r]]; unfold nrows; simpl; [done|].
  intros _ Hv. by destruct (String.eqb k k0).
Qed.

Lemma wf_set_col df k v :
  columns df <> [] -> wf_frame df -> col_len v = nrows df ->
  wf_frame (mkFrame (set_col (columns df) k v)) /\
  nrows (mkFrame (set_col (columns df) k v)) = nrows df.
Proof.
  intros Hne Hwf Hv. pose proof (nrows_set_col df k v Hne Hv) as Hn.
  split; [|done]. unfold wf_frame. simpl. rewrite Hn.
  by apply set_col_Forall.
Qed.

(** ** Lemmas on [assign] and [transform] *)

Lemma setitem_Ok s data x k v :
  heap s !! data = Some x ->
  setitem data k v s
  = (Ok tt, set_heap (<[data := mkFrame (set_col (columns x) k v)]> (heap s)) s).
Proof. intros H. unfold setitem. by rewrite (bind_Ok _ _ _ _ _ (deref_Ok _ _ _ H)). Qed.

Lemma assign_items_cons_Ok s data x k v rest col :
  heap s !! data = Some x -> v x s = (Ok col, s) ->
  assign_items data ((k, v) :: rest) s
  = assign_items data rest (set_heap (<[data := mkFrame (set_col (columns x) k col)]> (heap s)) s).
Proof.
  intros Hx Hv. simpl.
  rewrite (bind_Ok _ _ _ _ _ (deref_Ok _ _ _ Hx)), (bind_Ok _ _ _ _ _ Hv).
  by rewrite (bind_Ok _ _ _ _ _ (setitem_Ok _ _ _ k col Hx)).
Qed.

Definition pure_items (kwargs : list (string * (frame -> M column))) : Prop :=
  Forall (fun kv => forall x s, snd (kv.2 x s) = s) kwargs.

(** [assign_items] writes only the object [data], and there only the
    columns it is given. *)
Lemma assign_items_frame data kwargs s x res s' :
  pure_items kwargs -> heap s !! data = Some x ->
  assign_items data kwargs s = (res, s') ->
  (forall l, l <> data -> heap s' !! l = heap s !! l) /\
  exists x', heap s' !! data = Some x' /\
    map fst (columns x) `prefix_of` map fst (columns x') /\
    (forall k, k ∉ map fst kwargs -> lookup_col (columns x') k = lookup_col (columns x) k).
Proof.
  revert s x res s'.
  induction kwargs as [|[k v] rest IH]; intros s x res s' Hpure Hx Hrun.
  - simpl in Hrun. inversion Hrun; subst. split; [done|].
    exists x. done.
  - inversion Hpure as [|? ? Hv Hrest]; subst. simpl in Hv.
    destruct (v x s) as [r s1] eqn:Ev.
    assert (s1 = s) as -> by (specialize (Hv x s); rewrite Ev in Hv; done).
    destruct r as [col|e].
    + rewrite (assign_items_cons_Ok _ _ _ _ _ _ _ Hx Ev) in Hrun.
      assert (heap (set_heap (<[data := mkFrame (set_col (columns x) k col)]> (heap s)) s)
                !! data = Some (mkFrame (set_col (columns x) k col))) as Hx1
        by (by rewrite heap_set_heap, lookup_insert_eq).
      destruct (IH _ _ _ _ Hrest Hx1 Hrun) as [Hother [x' [Hx' [Hpre Hcols]]]].
      split.
      * intros l Hl. rewrite Hother by done. rewrite heap_set_heap.
        by rewrite lookup_insert_ne by congruence.
      * exists x'. split; [done|]. split.
        { etrans; [apply set_col_labels_prefix|exact Hpre]. }
        intros k' Hk'. rewrite Hcols by set_solver. simpl.
        apply lookup_set_col_ne. set_solver.
    + simpl in Hrun.
      rewrite (bind_Ok _ _ _ _ _ (deref_Ok _ _ _ Hx)), (bind_Err _ _ _ _ _ Ev) in Hrun.
      inversion Hrun; subst. split; [done|]. exists x. done.
Qed.

Definition transform_items (rates_dict : gmap string float) :=
  [("MC_GBP_Billion", convert rates_dict "GBP");
   ("MC_EUR_Billion", convert rates_dict "EUR");
   ("MC_INR_Billion", convert rates_dict "INR")].

Lemma transform_items_pure rates_dict : pure_items (transform_items rates_dict).
Proof. repeat constructor; intros; apply convert_pure. Qed.

Lemma assign_unfold st l df kwargs :
  heap st !! l = Some df ->
  let l1 := fresh (dom (heap st)) in
  assign l kwargs st
  = match assign_items l1 kwargs (set_heap (<[l1 := df]> (heap st)) st) with
    | (Ok _, s2) => (Ok l1, s2)
    | (Err e, s2) => (Err e, s2)
    end.
Proof.
  intros Hl l1. unfold assign.
  rewrite (bind_Ok _ _ _ _ _ (deref_Ok _ _ _ Hl)).
  unfold bind at 1. simpl. unfold bind, ret.
  destruct (assign_items _ _ _) as [[]] eqn:E; reflexivity.
Qed.

(** [transform] copies [df] to a fresh object, runs the three items on
    the copy, and logs on success. *)
Lemma transform_unfold st l df rates_dict :
  heap st !! l = Some df ->
  let l1 := fresh (dom (heap st)) in
  transform l rates_dict st
  = match assign_items l1 (transform_items rates_dict)
            (set_heap (<[l1 := df]> (heap st)) st) with
    | (Ok _, s2) =>
        (Ok l1, set_log (log s2 ++ ["Data transformation complete. Initiating Loading process"]) s2)
    | (Err e, s2) => (Err e, s2)
    end.
Proof.
  intros Hl l1. unfold transform. unfold bind at 1.
  fold (transform_items rates_dict).
  rewrite (assign_unfold _ _ _ _ Hl). fold l1.
  destruct (assign_items _ _ _) as [[]] eqn:E; reflexivity.
Qed.

Lemma lookup_col_In cols k c : lookup_col cols k = Some c -> (k, c) ∈ cols.
Proof.
  induction cols as [|[k0 c0] r IH]; simpl; [done|].
  destruct (String.eqb k k0) eqn:E.
  - intros [= <-]. apply String.eqb_eq in E. subst. by left.
  - intros H. right. by apply IH.
Qed.

Lemma lookup_wf_len df k c :
  wf_frame df -> lookup_col (columns df) k = Some c -> col_len c = nrows df.
Proof.
  intros Hwf Hk. apply lookup_col_In in Hk.
  unfold wf_frame in Hwf. rewrite Forall_forall in Hwf. by apply (Hwf (k, c)).
Qed.

Lemma lookup_col_nonempty cols k c : lookup_col cols k = Some c -> cols <> [].
Proof. by destruct cols. Qed.

Lemma col_floats_len c v : col_floats c = Some v -> length v = col_len c.
Proof. destruct c; simpl; intros [=<-]; by rewrite ?length_map. Qed.

(** One column added by [assign] keeps the frame well formed, its row
    count, the market-cap column and the order of the labels. *)
Lemma add_derived df k mc v r :
  wf_frame df -> lookup_col (columns df) MC_USD = Some mc -> col_floats mc = Some v ->
  k <> MC_USD ->
  let df' := mkFrame (set_col (columns df) k (ColFloat (map (fun y => np_round2 (y * r)%float) v))) in
  wf_frame df' /\ nrows df' = nrows df /\ lookup_col (columns df') MC_USD = Some mc /\
  map fst (columns df) `prefix_of` map fst (columns df').
Proof.
  intros Hwf Hmc Hv Hk df'.
  destruct (wf_set_col df k (ColFloat (map (fun y => np_round2 (y * r)%float) v))) as [Hwf' Hn].
  - by apply lookup_col_nonempty in Hmc.
  - done.
  - simpl. rewrite length_map, (col_floats_len _ _ Hv). by apply (lookup_wf_len _ MC_USD).
  - repeat split; [done|done| |apply set_col_labels_prefix].
    simpl. by rewrite lookup_set_col_ne.
Qed.

Lemma assign_items_cons_Err s data x k v rest e :
  heap s !! data = Some x -> v x s = (Err e, s) ->
  assign_items data ((k, v) :: rest) s = (Err e, s).
Proof.
  intros Hx Hv. simpl.
  by rewrite (bind_Ok _ _ _ _ _ (deref_Ok _ _ _ Hx)), (bind_Err _ _ _ _ _ Hv).
Qed.

Lemma convert_rate_missing rates_dict cur x s mc :
  lookup_col (columns x) MC_USD = Some mc -> rates_dict !! cur = None ->
  convert rates_dict cur x s = (Err (KeyError cur), s).
Proof.
  intros Hmc Hr. unfold convert, bind, lift, getitem, dict_get. by rewrite Hmc, Hr.
Qed.

Lemma convert_mul rates_dict cur x s mc r :
  lookup_col (columns x) MC_USD = Some mc -> rates_dict !! cur = Some r ->
  convert rates_dict cur x s
  = (match col_mul mc r with Ok p => Ok (col_round2 p) | Err e => Err e end, s).
Proof.
  intros Hmc Hr. unfold convert, bind, lift, ret, getitem, dict_get. rewrite Hmc, Hr.
  by destruct (col_mul mc r).
Qed.

Lemma col_mul_numeric mc v r :
  col_floats mc = Some v -> exists p, col_mul mc r = Ok p.
Proof. destruct mc; simpl; intros [=]; eauto. Qed.

Lemma MC_USD_neq_GBP : "MC_GBP_Billion" <> MC_USD. Proof. done. Qed.
Lemma MC_USD_neq_EUR : "MC_EUR_Billion" <> MC_USD. Proof. done. Qed.
Lemma MC_USD_neq_INR : "MC_INR_Billion" <> MC_USD. Proof. done. Qed.

(** The successful run of [transform]: the three derived columns are set,
    in order, on a fresh copy of [df]. *)
Lemma transform_Ok st l df rates_dict mc v g e i :
  heap st !! l = Some df ->
  lookup_col (columns df) MC_USD = Some mc -> col_floats mc = Some v ->
  rates_dict !! "GBP" = Some g -> rates_dict !! "EUR" = Some e ->
  rates_dict !! "INR" = Some i ->
  let l1 := fresh (dom (heap st)) in
  let conv r := ColFloat (map (fun y => np_round2 (y * r)%float) v) in
  let df1 := mkFrame (set_col (columns df) "MC_GBP_Billion" (conv g)) in
  let df2 := mkFrame (set_col (columns df1) "MC_EUR_Billion" (conv e)) in
  let df3 := mkFrame (set_col (columns df2) "MC_INR_Billion" (conv i)) in
  exists st', transform l rates_dict st = (Ok l1, st') /\ heap st' !! l1 = Some df3 /\
    forall l', l' <> l1 -> heap st' !! l' = heap st !! l'.
Proof.
  intros Hl Hmc Hv Hg He Hi l1 conv df1 df2 df3.
  rewrite (transform_unfold _ _ _ _ Hl). fold l1.
  assert (Hmc1 : lookup_col (columns df1) MC_USD = Some mc)
    by (simpl; by rewrite lookup_set_col_ne).
  assert (Hmc2 : lookup_col (columns df2) MC_USD = Some mc)
    by (simpl; by rewrite lookup_set_col_ne).
  unfold transform_items.
  rewrite (assign_items_cons_Ok _ _ df _ _ _ (conv g));
    [| by rewrite heap_set_heap, lookup_insert_eq | by apply (convert_Ok _ _ _ _ mc)].
  rewrite (assign_items_cons_Ok _ _ df1 _ _ _ (conv e));
    [| by rewrite heap_set_heap, lookup_insert_eq | by apply (convert_Ok _ _ _ _ mc)].
  rewrite (assign_items_cons_Ok _ _ df2 _ _ _ (conv i));
    [| by rewrite heap_set_heap, lookup_insert_eq | by apply (convert_Ok _ _ _ _ mc)].
  simpl. eexists. split; [reflexivity|]. simpl. split.
  - by rewrite lookup_insert_eq.
  - intros l' Hl'. by rewrite !lookup_insert_ne by congruence.
Qed.

(** C1: for a table with a numeric "Market cap (US$ billion)" column and
    a rate mapping with GBP, EUR and INR, [transform] returns a table whose
    three derived columns are [round(market_cap * rate, 2)] row by row, and
    whose rows are those of the input: same row count, every other column
    unchanged, the input's labels first and in order. *)
Theorem transform_derived_columns (st : state) (l : loc) (df : frame)
  (rates_dict : gmap string float) (mc : column) (v : list float) (g e i : float) :
  heap st !! l = Some df -> wf_frame df ->
  lookup_col (columns df) MC_USD = Some mc -> col_floats mc = Some v ->
  rates_dict !! "GBP" = Some g -> rates_dict !! "EUR" = Some e ->
  rates_dict !! "INR" = Some i ->
  exists l' st' df',
    transform l rates_dict st = (Ok l', st') /\ heap st' !! l' = Some df' /\
    lookup_col (columns df') "MC_GBP_Billion"
      = Some (ColFloat (map (fun y => np_round2 (y * g)%float) v)) /\
    lookup_col (columns df') "MC_EUR_Billion"
      = Some (ColFloat (map (fun y => np_round2 (y * e)%float) v)) /\
    lookup_col (columns df') "MC_INR_Billion"
      = Some (ColFloat (map (fun y => np_round2 (y * i)%float) v)) /\
    wf_frame df' /\ nrows df' = nrows df /\ length v = nrows df /\
    map fst (columns df) `prefix_of` map fst (columns df') /\
    (forall k, k ∉ derived_cols -> lookup_col (columns df') k = lookup_col (columns df) k).
Proof.
  intros Hl Hwf Hmc Hv Hg He Hi.
  destruct (transform_Ok _ _ _ _ _ _ _ _ _ Hl Hmc Hv Hg He Hi) as [st' [Hrun [Hdf _]]].
  do 3 eexists. split; [exact Hrun|]. split; [exact Hdf|].
  destruct (add_derived _ "MC_GBP_Billion" _ _ g Hwf Hmc Hv MC_USD_neq_GBP)
    as [Hwf1 [Hn1 [Hmc1 Hp1]]].
  destruct (add_derived _ "MC_EUR_Billion" _ _ e Hwf1 Hmc1 Hv MC_USD_neq_EUR)
    as [Hwf2 [Hn2 [Hmc2 Hp2]]].
  destruct (add_derived _ "MC_INR_Billion" _ _ i Hwf2 Hmc2 Hv MC_USD_neq_INR)
    as [Hwf3 [Hn3 [Hmc3 Hp3]]].
  simpl. rewrite !lookup_set_col_eq.
  rewrite (lookup_set_col_ne _ "MC_INR_Billion" "MC_GBP_Billion"),
    (lookup_set_col_ne _ "MC_EUR_Billion" "MC_GBP_Billion"), lookup_set_col_eq by done.
  rewrite (lookup_set_col_ne _ "MC_INR_Billion" "MC_EUR_Billion"), lookup_set_col_eq by done.
  repeat split; try done.
  - etrans; [apply Hn3|]. etrans; [apply Hn2|apply Hn1].
  - rewrite (col_floats_len _ _ Hv). by apply (lookup_wf_len _ MC_USD).
  - etrans; [exact Hp1|]. etrans; [exact Hp2|exact Hp3].
  - intros k Hk. unfold derived_cols in Hk.
    rewrite !lookup_set_col_ne; [done| set_solver | set_solver | set_solver].
Qed.

(** C1, applied to the spec's scenario. *)
Lemma transform_derived_columns_witness :
  exists mc v g e i,
    heap (state_with frame_X) !! loc1 = Some frame_X /\ wf_frame frame_X /\
    lookup_col (columns frame_X) MC_USD = Some mc /\ col_floats mc = Some v /\
    rates_X !! "GBP" = Some g /\ rates_X !! "EUR" = Some e /\ rates_X !! "INR" = Some i /\
    exists l' st' df',
      transform loc1 rates_X (state_with frame_X) = (Ok l', st') /\
      heap st' !! l' = Some df' /\
      lookup_col (columns df') "MC_GBP_Billion"
        = Some (ColFloat (map (fun y => np_round2 (y * g)%float) v)) /\
      lookup_col (columns df') "MC_EUR_Billion"
        = Some (ColFloat (map (fun y => np_round2 (y * e)%float) v)) /\
      lookup_col (columns df') "MC_INR_Billion"
        = Some (ColFloat (map (fun y => np_round2 (y * i)%float) v)) /\
      wf_frame df' /\ nrows df' = nrows frame_X /\ length v = nrows frame_X /\
      map fst (columns frame_X) `prefix_of` map fst (columns df') /\
      (forall k, k ∉ derived_cols -> lookup_col (columns df') k = lookup_col (columns frame_X) k).
Proof.
  do 5 eexists.
  assert (Hwf : wf_frame frame_X) by (repeat constructor).
  split; [reflexivity|]. split; [exact Hwf|].
  split; [reflexivity|]. split; [reflexivity|].
  split; [reflexivity|]. split; [reflexivity|]. split; [reflexivity|].
  apply (transform_derived_columns (state_with frame_X) loc1 frame_X rates_X
           (ColInt [100%Z])); try reflexivity; exact Hwf.
Defined.

(** C2: the spec's end-to-end scenario.  With the table
    [[{Bank name: "X", "Market cap (US$ billion)": 100}]] and the rates
    GBP 0.8, EUR 0.93, INR 82.95, [transform] yields 80.0, 93.0 and 8295.0
    in the three derived columns. *)
Theorem transform_scenario_X :
  exists l' st' df',
    transform loc1 rates_X (state_with frame_X) = (Ok l', st') /\
    heap st' !! l' = Some df' /\
    lookup_col (columns df') "MC_GBP_Billion" = Some (ColFloat [80.0%float]) /\
    lookup_col (columns df') "MC_EUR_Billion" = Some (ColFloat [93.0%float]) /\
    lookup_col (columns df') "MC_INR_Billion" = Some (ColFloat [8295.0%float]).
Proof.
  destruct (transform_Ok (state_with frame_X) loc1 frame_X rates_X (ColInt [100%Z])
              [100%float] 0.8%float 0.93%float 82.95%float)
    as [st' [Hrun [Hdf _]]]; try reflexivity.
  do 3 eexists. split; [exact Hrun|]. split; [exact Hdf|].
  vm_compute. repeat split.
Qed.

(** C8: [transform] leaves the caller's DataFrame as it was, whatever the
    outcome; on success it returns a different object, whose columns other
    than the three derived ones are those of the input, in the same order. *)
Theorem transform_no_mutation (st : state) (l : loc) (df : frame)
  (rates_dict : gmap string float) (res : result loc) (st' : state) :
  heap st !! l = Some df -> transform l rates_dict st = (res, st') ->
  heap st' !! l = Some df /\
  forall l', res = Ok l' ->
    l' <> l /\
    exists df', heap st' !! l' = Some df' /\
      map fst (columns df) `prefix_of` map fst (columns df') /\
      (forall k, k ∉ derived_cols -> lookup_col (columns df') k = lookup_col (columns df) k).
Proof.
  intros Hl Hrun. rewrite (transform_unfold _ _ _ _ Hl) in Hrun.
  set (l1 := fresh (dom (heap st))) in Hrun.
  assert (Hne : l1 <> l).
  { assert (Hin : l ∈ dom (heap st)) by (by eapply elem_of_dom_2).
    intros Heq. apply (is_fresh (dom (heap st))). unfold l1 in Heq. by rewrite Heq. }
  assert (H1 : heap (set_heap (<[l1 := df]> (heap st)) st) !! l1 = Some df)
    by (by rewrite heap_set_heap, lookup_insert_eq).
  destruct (assign_items l1 (transform_items rates_dict) _) as [r s2] eqn:E.
  destruct (assign_items_frame _ _ _ _ _ _ (transform_items_pure rates_dict) H1 E)
    as [Hother [x' [Hx' [Hpre Hcols]]]].
  assert (Hkeep : heap s2 !! l = Some df).
  { rewrite Hother by congruence. rewrite heap_set_heap, lookup_insert_ne by congruence.
    exact Hl. }
  destruct r as [[]|e]; inversion Hrun; subst; clear Hrun.
  - split; [exact Hkeep|]. intros l' [= <-]. split; [exact Hne|].
    exists x'. rewrite heap_set_log. repeat split; [exact Hx'|exact Hpre|].
    intros k Hk. apply Hcols. exact Hk.
  - split; [exact Hkeep|]. intros l' [=].
Qed.

(** C4: with the market-cap column present and one of GBP, EUR, INR
    missing from the rate mapping, [transform] raises instead of returning
    a table; when the market-cap column is numeric the exception is the
    [KeyError] of a missing currency. *)
Theorem transform_missing_rate (st : state) (l : loc) (df : frame)
  (rates_dict : gmap string float) (mc : column) :
  heap st !! l = Some df -> lookup_col (columns df) MC_USD = Some mc ->
  rates_dict !! "GBP" = None \/ rates_dict !! "EUR" = None \/ rates_dict !! "INR" = None ->
  exists e st', transform l rates_dict st = (Err e, st') /\
    (col_floats mc <> None ->
     exists k, e = KeyError k /\ k ∈ ["GBP"; "EUR"; "INR"] /\ rates_dict !! k = None).
Proof.
  intros Hl Hmc Hmiss. rewrite (transform_unfold _ _ _ _ Hl).
  set (l1 := fresh (dom (heap st))).
  set (s1 := set_heap (<[l1 := df]> (heap st)) st).
  assert (H1 : heap s1 !! l1 = Some df) by (unfold s1; by rewrite heap_set_heap, lookup_insert_eq).
  unfold transform_items.
  destruct (rates_dict !! "GBP") as [g|] eqn:Hg.
  2:{ rewrite (assign_items_cons_Err _ _ _ _ _ _ _ H1 (convert_rate_missing _ _ _ _ _ Hmc Hg)).
      do 2 eexists. split; [reflexivity|]. intros _. exists "GBP". set_solver. }
  pose proof (convert_mul rates_dict "GBP" df s1 mc g Hmc Hg) as Cg.
  destruct (col_mul mc g) as [pg|eg] eqn:Mg.
  2:{ rewrite (assign_items_cons_Err _ _ _ _ _ _ _ H1 Cg).
      do 2 eexists. split; [reflexivity|]. intros Hnum.
      destruct (col_floats mc) as [v|] eqn:Hv; [|done].
      destruct (col_mul_numeric mc v g Hv) as [p Hp]. congruence. }
  rewrite (assign_items_cons_Ok _ _ _ _ _ _ _ H1 Cg).
  set (df1 := mkFrame (set_col (columns df) "MC_GBP_Billion" (col_round2 pg))).
  set (s2 := set_heap (<[l1 := df1]> (heap s1)) s1).
  assert (H2 : heap s2 !! l1 = Some df1) by (unfold s2; by rewrite heap_set_heap, lookup_insert_eq).
  assert (Hmc1 : lookup_col (columns df1) MC_USD = Some mc)
    by (simpl; by rewrite lookup_set_col_ne).
  destruct (rates_dict !! "EUR") as [e|] eqn:He.
  2:{ rewrite (assign_items_cons_Err _ _ _ _ _ _ _ H2 (convert_rate_missing _ _ _ _ _ Hmc1 He)).
      do 2 eexists. split; [reflexivity|]. intros _. exists "EUR". set_solver. }
  pose proof (convert_mul rates_dict "EUR" df1 s2 mc e Hmc1 He) as Ce.
  destruct (col_mul mc e) as [pe|ee] eqn:Me.
  2:{ rewrite (assign_items_cons_Err _ _ _ _ _ _ _ H2 Ce).
      do 2 eexists. split; [reflexivity|]. intros Hnum.
      destruct (col_floats mc) as [v|] eqn:Hv; [|done].
      destruct (col_mul_numeric mc v e Hv) as [p Hp]. congruence. }
  rewrite (assign_items_cons_Ok _ _ _ _ _ _ _ H2 Ce).
  set (df2 := mkFrame (set_col (columns df1) "MC_EUR_Billion" (col_round2 pe))).
  set (s3 := set_heap (<[l1 := df2]> (heap s2)) s2).
  assert (H3 : heap s3 !! l1 = Some df2) by (unfold s3; by rewrite heap_set_heap, lookup_insert_eq).
  assert (Hmc2 : lookup_col (columns df2) MC_USD = Some mc)
    by (simpl; by rewrite lookup_set_col_ne).
  destruct (rates_dict !! "INR") as [i|] eqn:Hi.
  2:{ rewrite (assign_items_cons_Err _ _ _ _ _ _ _ H3 (convert_rate_missing _ _ _ _ _ Hmc2 Hi)).
      do 2 eexists. split; [reflexivity|]. intros _. exists "INR". set_solver. }
  exfalso. naive_solver.
Qed.

(** ** Lemmas on the CSV writer and reader *)

Lemma needs_quote_cons c f :
  needs_quote (c :: f) = false ->
  Ascii.eqb c comma = false /\ Ascii.eqb c dq = false /\ Ascii.eqb c nl = false /\
  needs_quote f = false.
Proof.
  unfold needs_quote. simpl. intros H.
  apply orb_false_iff in H as [Hc Hf].
  repeat (apply orb_false_iff in Hc as [Hc ?]). done.
Qed.

Lemma parse_unquoted acc record f rest :
  needs_quote f = false ->
  parse_go InField acc record (f ++ rest) = parse_go InField (acc ++ f) record rest.
Proof.
  revert acc. induction f as [|c f IH]; intros acc Hf; simpl.
  - by rewrite app_nil_r.
  - destruct (needs_quote_cons _ _ Hf) as [Hc [Hq [Hn Hf']]].
    rewrite Hn, Hc, IH by done. by rewrite <- app_assoc.
Qed.

Lemma parse_escape acc record f rest :
  parse_go InQuoted acc record (escape f ++ dq :: rest)
  = parse_go QuoteInQuoted (acc ++ f) record rest.
Proof.
  revert acc. induction f as [|c f IH]; intros acc; simpl.
  - by rewrite app_nil_r.
  - destruct (Ascii.eqb c dq) eqn:E; simpl.
    + apply Ascii.eqb_eq in E. subst c. rewrite IH. by rewrite <- app_assoc.
    + rewrite E, IH. by rewrite <- app_assoc.
Qed.

(** A field followed by a separator is read back as that field. *)
Lemma parse_field f record sep rest :
  sep = comma \/ sep = nl ->
  parse_go StartField [] record (quote_field f ++ sep :: rest)
  = parse_go QuoteInQuoted f record (sep :: rest).
Proof.
  intros Hsep. unfold quote_field.
  destruct (needs_quote f) eqn:Hq.
  - simpl. rewrite <- app_assoc. simpl. by rewrite parse_escape.
  - destruct f as [|c f].
    + simpl. by destruct Hsep as [-> | ->].
    + destruct (needs_quote_cons _ _ Hq) as [Hc [Hd [Hn Hf']]].
      simpl. rewrite Hn, Hd, Hc. rewrite parse_unquoted by done. simpl.
      by destruct Hsep as [-> | ->].
Qed.

Lemma parse_join fs record rest :
  fs <> [] ->
  parse_go StartField [] record (join_fields fs ++ nl :: rest)
  = app record fs :: parse_go StartRecord [] [] rest.
Proof.
  revert record. induction fs as [|f [|g r] IH]; intros record Hne; [done| |].
  - simpl. rewrite parse_field by (by right). done.
  - change (join_fields (f :: g :: r)) with ((quote_field f ++ comma :: join_fields (g :: r))%list).
    rewrite <- app_assoc. simpl. rewrite parse_field by (by left). simpl.
    rewrite IH by done. by rewrite <- app_assoc.
Qed.

Lemma quote_field_head f :
  f <> [] -> exists c t, quote_field f = c :: t /\ Ascii.eqb c nl = false.
Proof.
  intros Hne. unfold quote_field. destruct (needs_quote f) eqn:Hq.
  - by exists dq, (escape f ++ [dq])%list.
  - destruct f as [|c f]; [done|].
    destruct (needs_quote_cons _ _ Hq) as [_ [_ [Hn _]]]. by exists c, f.
Qed.

Lemma join_head fs :
  fs <> [] -> fs <> [[]] -> exists c t, join_fields fs = c :: t /\ Ascii.eqb c nl = false.
Proof.
  intros Hne Hne'. destruct fs as [|f [|g r]]; [done| |].
  - apply quote_field_head. by intros ->.
  - change (join_fields (f :: g :: r)) with ((quote_field f ++ comma :: join_fields (g :: r))%list).
    destruct f as [|c f].
    + by exists comma, (join_fields (g :: r)).
    + destruct (quote_field_head (c :: f)) as [c' [t [Ht Hc']]]; [done|].
      rewrite Ht. by exists c', (t ++ comma :: join_fields (g :: r))%list.
Qed.

Lemma parse_start_record c rest :
  Ascii.eqb c nl = false ->
  parse_go StartRecord [] [] (c :: rest) = parse_go StartField [] [] (c :: rest).
Proof. intros Hc. simpl. by rewrite Hc. Qed.

(** One record written and read back. *)
Lemma parse_record fs rest :
  fs <> [] ->
  parse_go StartRecord [] [] (write_record fs ++ rest) = fs :: parse_go StartRecord [] [] rest.
Proof.
  intros Hne.
  destruct (decide (fs = [[]])) as [->|Hne'].
  - reflexivity.
  - assert (Hw : write_record fs = (join_fields fs ++ [nl])%list)
      by (destruct fs as [|[|c f] [|g r]]; done).
    rewrite Hw, <- app_assoc.
    destruct (join_head fs Hne Hne') as [c [t [Ht Hc]]].
    rewrite Ht, <- app_comm_cons, parse_start_record by done.
    rewrite app_comm_cons, <- Ht. simpl. by rewrite parse_join.
Qed.

Lemma parse_records rs :
  Forall (fun fs => fs <> []) rs ->
  parse_go StartRecord [] [] (concat (map write_record rs)) = rs.
Proof.
  induction 1 as [|fs rs Hfs _ IH]; [done|].
  simpl. by rewrite parse_record, IH.
Qed.

(** C7: when the target path can be written, [load_to_csv] writes a file
    there ([output_path], or ./data/final_data.csv when it is missing or
    empty) that reads back as the header record (the column labels, no
    index column) followed by one record per row, each field the text of
    the cell of that row in that column. *)
Theorem load_to_csv_roundtrip (float_repr : float -> string) (st : state) (l : loc)
  (df : frame) (output_path : option string) :
  heap st !! l = Some df -> columns df <> [] ->
  can_write st (resolve_output_path output_path) = true ->
  exists st' text,
    load_to_csv float_repr l output_path st = (Ok tt, st') /\
    files st' !! resolve_output_path output_path = Some text /\
    read_csv_records text = header_text df :: rows_text float_repr df.
Proof.
  intros Hl Hne Hw. unfold load_to_csv.
  rewrite (bind_Ok _ _ _ _ _ (deref_Ok _ _ _ Hl)). unfold bind, to_csv. rewrite Hw. simpl.
  eexists _, _. split; [reflexivity|]. split; [simpl; by rewrite lookup_insert_eq|].
  unfold read_csv_records. rewrite list_ascii_of_string_of_list_ascii.
  unfold to_csv_text.
  change (write_record (header_text df) ++ concat (map write_record (rows_text float_repr df)))%list
    with (concat (map write_record (header_text df :: rows_text float_repr df))).
  apply parse_records. constructor.
  - unfold header_text. destruct (columns df); done.
  - unfold rows_text. induction (seq 0 (nrows df)) as [|i is IH]; simpl; constructor; [|done].
    destruct (columns df); done.
Qed.

(** C3: two runs of [load_to_db] with the same DataFrame and table name
    leave the database as one run does: the table holds the rows of the
    DataFrame, once (replacement, not accumulation). *)
Theorem load_to_db_idempotent (st : state) (l : loc) (df : frame)
  (sql_connection table_name : option string) :
  heap st !! l = Some df ->
  exists st1 st2 db,
    load_to_db l sql_connection table_name st = (Ok tt, st1) /\
    load_to_db l sql_connection table_name st1 = (Ok tt, st2) /\
    dbs st2 = dbs st1 /\
    dbs st2 !! resolve_connection sql_connection = Some db /\
    db !! resolve_table_name table_name = Some df.
Proof.
  intros Hl.
  unfold load_to_db, bind, log_progress, deref, to_sql. simpl. rewrite Hl. simpl.
  eexists _, _, _. split; [reflexivity|]. simpl. rewrite Hl. simpl.
  split; [reflexivity|]. simpl.
  rewrite lookup_insert_eq. simpl.
  rewrite delete_insert_eq, delete_delete_eq, insert_insert_eq.
  split; [reflexivity|]. split; [by rewrite lookup_insert_eq|].
  by rewrite lookup_insert_eq.
Qed.

Lemma find_all_false {A} (f : A -> bool) (l : list A) :
  (forall x, In x l -> f x = false) -> List.find f l = None.
Proof.
  induction l as [|x l IH]; intros H; simpl; [done|].
  rewrite (H x) by (by left). apply IH. intros y Hy. apply H. by right.
Qed.

(** C5: when the page is fetched and no table element of it matches the
    attribute filter, [extract] raises (pandas' "No tables found") instead
    of returning a table. *)
Theorem extract_no_match_fails (read_table : element -> result (list frame)) (st : state)
  (url : string) (table_attribs : option (list (string * string))) (r : response) :
  web st url = Some r ->
  ((400 <=? status_code r) && (status_code r <? 600))%Z = false ->
  (forall e, In e (resp_doc r) -> tag_matches "table" (resolve_attribs table_attribs) e = false) ->
  exists st', extract read_table url table_attribs st = (Err (ValueError "No tables found"), st').
Proof.
  intros Hweb Hstatus Hnone. unfold extract.
  assert (Hget : requests_get url st = (Ok r, st)) by (unfold requests_get; by rewrite Hweb).
  rewrite (bind_Ok _ _ _ _ _ Hget).
  assert (Hrs : raise_for_status r st = (Ok tt, st)) by (unfold raise_for_status; by rewrite Hstatus).
  rewrite (bind_Ok _ _ _ _ _ Hrs).
  unfold soup_find. rewrite (find_all_false _ _ Hnone).
  eexists. reflexivity.
Qed.

(** C6 (the progress line of [extract] is written before [pd.read_html]
    runs): on a page with no "wikitable", [extract] writes "Data
    extraction complete" to the log and then raises. *)
Theorem extract_logs_then_fails (read_table : element -> result (list frame)) :
  exists st',
    extract read_table "https://example.org" None (state_page page_without_table)
    = (Err (ValueError "No tables found"), st') /\
    log st' = ["Data extraction complete. Initiating Transformation process"].
Proof.
  exists (set_log ["Data extraction complete. Initiating Transformation process"]
            (state_page page_without_table)).
  split; [|reflexivity]. vm_compute. reflexivity.
Qed.

(** C10: a falsy argument selects the default like an omitted one: the
    empty attribute dict makes [extract] search for [{"class": "wikitable"}],
    and the empty table name makes [load_to_db] write "Largest_banks". *)
Theorem falsy_arguments_default (read_table : element -> result (list frame))
  (url : string) (st : state) (df : loc) (sql_connection : option string) :
  extract read_table url (Some []) st = extract read_table url None st /\
  extract read_table url None st = extract read_table url (Some [("class", "wikitable")]) st /\
  load_to_db df sql_connection (Some "") st = load_to_db df sql_connection None st /\
  load_to_db df sql_connection (Some "") st
  = load_to_db df sql_connection (Some "Largest_banks") st.
Proof. repeat split. Qed.

(** C8, on the spec's scenario. *)
Lemma transform_no_mutation_witness :
  let run := transform loc1 rates_X (state_with frame_X) in
  heap (state_with frame_X) !! loc1 = Some frame_X /\
  transform loc1 rates_X (state_with frame_X) = (run.1, run.2) /\
  heap run.2 !! loc1 = Some frame_X /\
  forall l', run.1 = Ok l' ->
    l' <> loc1 /\
    exists df', heap run.2 !! l' = Some df' /\
      map fst (columns frame_X) `prefix_of` map fst (columns df') /\
      (forall k, k ∉ derived_cols -> lookup_col (columns df') k = lookup_col (columns frame_X) k).
Proof.
  intros run. split; [reflexivity|]. split; [reflexivity|].
  apply (transform_no_mutation (state_with frame_X) loc1 frame_X rates_X run.1 run.2);
    reflexivity.
Defined.

(** C4, with EUR and INR missing. *)
Lemma transform_missing_rate_witness :
  heap (state_with frame_X) !! loc1 = Some frame_X /\
  lookup_col (columns frame_X) MC_USD = Some (ColInt [100%Z]) /\
  (rates_GBP_only !! "GBP" = None \/ rates_GBP_only !! "EUR" = None \/
   rates_GBP_only !! "INR" = None) /\
  exists e st', transform loc1 rates_GBP_only (state_with frame_X) = (Err e, st') /\
    (col_floats (ColInt [100%Z]) <> None ->
     exists k, e = KeyError k /\ k ∈ ["GBP"; "EUR"; "INR"] /\ rates_GBP_only !! k = None).
Proof.
  assert (Hm : rates_GBP_only !! "GBP" = None \/ rates_GBP_only !! "EUR" = None \/
               rates_GBP_only !! "INR" = None) by (right; left; reflexivity).
  split; [reflexivity|]. split; [reflexivity|]. split; [exact Hm|].
  apply (transform_missing_rate (state_with frame_X) loc1 frame_X rates_GBP_only
           (ColInt [100%Z])); [reflexivity|reflexivity|exact Hm].
Defined.

(** C7, on the spec's scenario, with an empty path: the default file. *)
Lemma load_to_csv_roundtrip_witness :
  heap (state_with frame_X) !! loc1 = Some frame_X /\ columns frame_X <> [] /\
  exists st' text,
    load_to_csv repr_stub loc1 (Some "") (state_with frame_X) = (Ok tt, st') /\
    files st' !! DEFAULT_CSV = Some text /\
    read_csv_records text = header_text frame_X :: rows_text repr_stub frame_X.
Proof.
  assert (Hne : columns frame_X <> []) by (vm_compute; discriminate).
  split; [reflexivity|]. split; [exact Hne|].
  apply (load_to_csv_roundtrip repr_stub (state_with frame_X) loc1 frame_X (Some ""));
    [reflexivity|exact Hne|reflexivity].
Defined.

(** C3, on the spec's scenario. *)
Lemma load_to_db_idempotent_witness :
  heap (state_with frame_X) !! loc1 = Some frame_X /\
  exists st1 st2 db,
    load_to_db loc1 None None (state_with frame_X) = (Ok tt, st1) /\
    load_to_db loc1 None None st1 = (Ok tt, st2) /\
    dbs st2 = dbs st1 /\
    dbs st2 !! resolve_connection None = Some db /\
    db !! resolve_table_name None = Some frame_X.
Proof.
  split; [reflexivity|].
  apply (load_to_db_idempotent (state_with frame_X) loc1 frame_X None None). reflexivity.
Defined.

(** C5, on a page whose only table is an infobox. *)
Lemma extract_no_match_fails_witness :
  web (state_page page_without_table) "https://example.org" = Some page_without_table /\
  ((400 <=? status_code page_without_table) && (status_code page_without_table <? 600))%Z
    = false /\
  (forall e, In e (resp_doc page_without_table) ->
     tag_matches "table" (resolve_attribs None) e = false) /\
  exists st', extract (fun _ => Ok []) "https://example.org" None (state_page page_without_table)
              = (Err (ValueError "No tables found"), st').
Proof.
  assert (Hnone : forall e, In e (resp_doc page_without_table) ->
                    tag_matches "table" (resolve_attribs None) e = false)
    by (intros e [<-|[]]; reflexivity).
  split; [reflexivity|]. split; [reflexivity|]. split; [exact Hnone|].
  apply (extract_no_match_fails (fun _ => Ok []) (state_page page_without_table)
           "https://example.org" None page_without_table); [reflexivity|reflexivity|exact Hnone].
Defined.

(** C9 (as stated, for every tie): refuted.  The product 393514609659976.125
    is a tie (200 times it is odd); its neighbours are ...976.12 (even last
    digit) and ...976.13.  [transform] puts 393514609659976.1875 in the
    derived column, while the float 393514609659976.125 is strictly closer
    to both neighbours: the column holds neither of them.  numpy's
    [rint(x * 100) / 100] rounds [x * 100] to a float first, which is not
    exact at this magnitude. *)
Lemma round_half_even_counterexample :
  exists st' df' m e N r,
    transform loc1 rates_one (state_with frame_big) = (Ok (fresh (dom (heap (state_with frame_big)))), st') /\
    heap st' !! fresh (dom (heap (state_with frame_big))) = Some df' /\
    lookup_col (columns df') "MC_GBP_Billion" = Some (ColFloat [r]) /\
    Prim2SF (big_tie * 1)%float = S754_finite false m e /\
    value200 m e = Some N /\ Z.odd N = true /\
    r = 393514609659976.1875%float /\
    (exists qp qr,
       float_Q (big_tie * 1)%float = Some qp /\ float_Q r = Some qr /\
       (Qabs (qp - Qmake (even_hundredths N) 100) < Qabs (qr - Qmake (even_hundredths N) 100))%Q /\
       (Qabs (qp - Qmake (N / 2) 100) < Qabs (qr - Qmake (N / 2) 100))%Q /\
       (Qabs (qp - Qmake (N / 2 + 1) 100) < Qabs (qr - Qmake (N / 2 + 1) 100))%Q).
Proof.
  destruct (transform_Ok (state_with frame_big) loc1 frame_big rates_one (ColFloat [big_tie])
              [big_tie] 1%float 1%float 1%float)
    as [st' [Hrun [Hdf _]]]; try reflexivity.
  do 6 eexists. split; [exact Hrun|]. split; [exact Hdf|].
  split; [vm_compute; reflexivity|].
  split; [vm_compute; reflexivity|].
  split; [vm_compute; reflexivity|].
  split; [vm_compute; reflexivity|].
  split; [vm_compute; reflexivity|].
  do 2 eexists. split; [vm_compute; reflexivity|]. split; [vm_compute; reflexivity|].
  split; [|split]; vm_compute; reflexivity.
Qed.

(** ** Lemmas on numpy's rounding of ties

    The primitive-float operations are specified by [Prim2SF] and the
    [SpecFloat] functions: the lemmas below follow [binary_round_aux] and
    [shr_1] on the mantissas that occur when a decimal tie is rounded. *)

Lemma iter_pos_nat {A} (f : A -> A) (p : positive) (x : A) :
  SpecFloat.iter_pos f p x = Nat.iter (Pos.to_nat p) f x.
Proof.
  revert x; induction p as [p IH|p IH|]; intros x.
  - change (SpecFloat.iter_pos f p~1 x)
      with (SpecFloat.iter_pos f p (SpecFloat.iter_pos f p (f x))).
    rewrite IH, IH, Pos2Nat.inj_xI, Nat.iter_succ_r.
    replace (2 * Pos.to_nat p)%nat with (Pos.to_nat p + Pos.to_nat p)%nat by lia.
    now rewrite Nat.iter_add.
  - change (SpecFloat.iter_pos f p~0 x)
      with (SpecFloat.iter_pos f p (SpecFloat.iter_pos f p x)).
    rewrite IH, IH, Pos2Nat.inj_xO.
    replace (2 * Pos.to_nat p)%nat with (Pos.to_nat p + Pos.to_nat p)%nat by lia.
    now rewrite Nat.iter_add.
  - reflexivity.
Qed.

Lemma shr_1_even (x : Z) r s :
  shr_1 {| shr_m := 2 * x; shr_r := r; shr_s := s |}
  = {| shr_m := x; shr_r := false; shr_s := r || s |}.
Proof. destruct x; reflexivity. Qed.

Lemma shr_1_odd (x : Z) r s : (0 <= x)%Z ->
  shr_1 {| shr_m := 2 * x + 1; shr_r := r; shr_s := s |}
  = {| shr_m := x; shr_r := true; shr_s := r || s |}.
Proof. intros H. destruct x; try lia; reflexivity. Qed.

Lemma shr_iter_exact (k : nat) (q : Z) :
  Nat.iter k shr_1 {| shr_m := q * 2 ^ Z.of_nat k; shr_r := false; shr_s := false |}
  = {| shr_m := q; shr_r := false; shr_s := false |}.
Proof.
  revert q; induction k as [|k IH]; intros q.
  - simpl. now rewrite Z.mul_1_r.
  - rewrite Nat.iter_succ_r.
    replace (q * 2 ^ Z.of_nat (S k))%Z with (2 * (q * 2 ^ Z.of_nat k))%Z
      by (rewrite Nat2Z.inj_succ, Z.pow_succ_r by lia; ring).
    rewrite shr_1_even. apply IH.
Qed.

Lemma shr_iter_half (k : nat) (q : Z) : (0 <= q)%Z ->
  Nat.iter (S k) shr_1
    {| shr_m := q * 2 ^ Z.of_nat (S k) + 2 ^ Z.of_nat k; shr_r := false; shr_s := false |}
  = {| shr_m := q; shr_r := true; shr_s := false |}.
Proof.
  intros Hq. revert q Hq; induction k as [|k IH]; intros q Hq.
  - change (Z.of_nat 1) with 1%Z. change (Z.of_nat 0) with 0%Z.
    rewrite Z.pow_1_r, Z.pow_0_r.
    replace (q * 2 + 1)%Z with (2 * q + 1)%Z by ring.
    exact (shr_1_odd q false false Hq).
  - rewrite Nat.iter_succ_r.
    replace (q * 2 ^ Z.of_nat (S (S k)) + 2 ^ Z.of_nat (S k))%Z
      with (2 * (q * 2 ^ Z.of_nat (S k) + 2 ^ Z.of_nat k))%Z
      by (rewrite !Nat2Z.inj_succ, !Z.pow_succ_r by lia; ring).
    rewrite shr_1_even. now apply IH.
Qed.

Lemma digits2_pos_spec (p : positive) :
  (2 ^ (Zpos (digits2_pos p) - 1) <= Zpos p < 2 ^ Zpos (digits2_pos p))%Z.
Proof.
  induction p as [p IH|p IH|]; [| |simpl; lia];
    change (digits2_pos _) with (Pos.succ (digits2_pos p));
    rewrite Pos2Z.inj_succ;
    set (D := Zpos (digits2_pos p)) in *;
    (assert (HD : (2 ^ D = 2 * 2 ^ (D - 1))%Z)
       by (rewrite <- Z.pow_succ_r by lia; f_equal; lia));
    replace (Z.succ D - 1)%Z with D by lia;
    rewrite Z.pow_succ_r by lia; lia.
Qed.

Lemma digits2_pos_unique (p : positive) (d : Z) :
  (2 ^ (d - 1) <= Zpos p < 2 ^ d)%Z -> Zpos (digits2_pos p) = d.
Proof.
  intros [H1 H2]. pose proof (digits2_pos_spec p) as [H3 H4].
  set (D := Zpos (digits2_pos p)) in *.
  assert (0 < d)%Z.
  { destruct (Z.lt_ge_cases 0%Z d) as [|Hd]; [assumption|].
    assert (2 ^ d <= 1)%Z.
    { destruct (Z.eq_dec d 0%Z) as [->|]; [simpl; lia|rewrite Z.pow_neg_r; lia]. }
    lia. }
  assert (0 < D)%Z by (unfold D; lia).
  destruct (Z.lt_trichotomy D d) as [Hlt|[Heq|Hgt]]; [|exact Heq|].
  - assert (2 ^ D <= 2 ^ (d - 1))%Z by (apply Z.pow_le_mono_r; lia). lia.
  - assert (2 ^ d <= 2 ^ (D - 1))%Z by (apply Z.pow_le_mono_r; lia). lia.
Qed.

Lemma pos_iter_xO (p d : positive) :
  Zpos (Pos.iter xO p d) = (Zpos p * 2 ^ Zpos d)%Z.
Proof.
  induction d as [|d IH] using Pos.peano_ind.
  - simpl. lia.
  - rewrite Pos.iter_succ, Pos2Z.inj_succ, Z.pow_succ_r by lia.
    change (Zpos (xO (Pos.iter xO p d))) with (2 * Zpos (Pos.iter xO p d))%Z.
    rewrite IH. ring.
Qed.

Lemma shr_exact (M q E n : Z) : (0 <= n)%Z -> M = (q * 2 ^ n)%Z ->
  shr {| shr_m := M; shr_r := false; shr_s := false |} E n
  = ({| shr_m := q; shr_r := false; shr_s := false |}, (E + n)%Z).
Proof.
  intros Hn HM. destruct n as [|np|np]; [| |lia].
  - rewrite Z.pow_0_r, Z.mul_1_r in HM. subst M. simpl. now rewrite Z.add_0_r.
  - unfold shr. rewrite iter_pos_nat, HM, <- (positive_nat_Z np), shr_iter_exact.
    now rewrite positive_nat_Z.
Qed.

Lemma shr_half (M q E n : Z) : (0 < n)%Z -> (0 <= q)%Z ->
  M = (q * 2 ^ n + 2 ^ (n - 1))%Z ->
  shr {| shr_m := M; shr_r := false; shr_s := false |} E n
  = ({| shr_m := q; shr_r := true; shr_s := false |}, (E + n)%Z).
Proof.
  intros Hn Hq HM. destruct n as [|np|np]; try lia.
  unfold shr. rewrite iter_pos_nat, HM.
  destruct (Pos.to_nat np) as [|k] eqn:Ek; [lia|].
  assert (Hk : Zpos np = Z.of_nat (S k)) by (rewrite <- Ek, positive_nat_Z; reflexivity).
  assert (Hk' : (Zpos np - 1)%Z = Z.of_nat k) by lia.
  rewrite Hk', Hk, shr_iter_half by exact Hq. reflexivity.
Qed.

Lemma digits2_pos_shift (M q : positive) (n : Z) : (0 <= n)%Z ->
  Zpos M = (Zpos q * 2 ^ n)%Z ->
  Zpos (digits2_pos M) = (Zpos (digits2_pos q) + n)%Z.
Proof.
  intros Hn HM. apply digits2_pos_unique. rewrite HM.
  pose proof (digits2_pos_spec q) as [H1 H2].
  replace (Zpos (digits2_pos q) + n - 1)%Z with (Zpos (digits2_pos q) - 1 + n)%Z by ring.
  rewrite !Z.pow_add_r by lia.
  assert (0 < 2 ^ n)%Z by (apply Z.pow_pos_nonneg; lia).
  split; nia.
Qed.

Lemma round_aux_exact (s : bool) (M q : positive) (E n : Z) :
  (0 <= n)%Z -> Zpos M = (Zpos q * 2 ^ n)%Z ->
  fexp 53 1024 (Zpos (digits2_pos M) + E) = (E + n)%Z -> (E + n <= 971)%Z ->
  binary_round_aux 53 1024 s (Zpos M) E loc_Exact = S754_finite s q (E + n).
Proof.
  intros Hn HM Hf Hb.
  pose proof (digits2_pos_shift M q n Hn HM) as Hd.
  unfold binary_round_aux, shr_fexp. cbn [Zdigits2 shr_record_of_loc].
  rewrite Hf. replace (E + n - E)%Z with n by ring.
  rewrite (shr_exact _ (Zpos q) E n Hn HM). cbn [shr_m loc_of_shr_record round_nearest_even Zdigits2].
  replace (Zpos (digits2_pos q) + (E + n))%Z with (Zpos (digits2_pos M) + E)%Z by lia.
  rewrite Hf, Z.sub_diag. cbn [shr shr_m].
  replace (E + n <=? 1024 - 53)%Z with true by (symmetry; apply Z.leb_le; lia).
  reflexivity.
Qed.

Lemma round_aux_half (s : bool) (M : positive) (q r : Z) (E n : Z) :
  (0 < n)%Z -> (0 <= q)%Z -> Zpos M = (q * 2 ^ n + 2 ^ (n - 1))%Z ->
  fexp 53 1024 (Zpos (digits2_pos M) + E) = (E + n)%Z ->
  r = (if Z.even q then q else q + 1)%Z -> (0 < r)%Z ->
  fexp 53 1024 (Zdigits2 r + (E + n)) = (E + n)%Z -> (E + n <= 971)%Z ->
  binary_round_aux 53 1024 s (Zpos M) E loc_Exact = S754_finite s (Z.to_pos r) (E + n).
Proof.
  intros Hn Hq HM Hf Hr Hr0 Hf2 Hb.
  unfold binary_round_aux, shr_fexp. cbn [Zdigits2 shr_record_of_loc].
  rewrite Hf. replace (E + n - E)%Z with n by ring.
  rewrite (shr_half _ q E n Hn Hq HM). cbn [shr_m loc_of_shr_record round_nearest_even].
  rewrite <- Hr, Hf2, Z.sub_diag. cbn [shr shr_m].
  destruct r as [|rp|rp]; try lia.
  replace (E + n <=? 1024 - 53)%Z with true by (symmetry; apply Z.leb_le; lia).
  reflexivity.
Qed.

Lemma pos_odd_decomp (p : positive) :
  exists j a, Zpos p = (j * 2 ^ a)%Z /\ Z.odd j = true /\ (0 <= a)%Z /\ (0 < j)%Z.
Proof.
  induction p as [p _|p IH|].
  - exists (Zpos p~1), 0%Z. repeat split; try reflexivity; lia.
  - destruct IH as (j & a & Hp & Hj & Ha & Hj0).
    exists j, (a + 1)%Z. repeat split; try assumption; try lia.
    rewrite Z.pow_add_r by lia. change (Zpos p~0) with (2 * Zpos p)%Z. rewrite Hp. ring.
  - exists 1%Z, 0%Z. repeat split; reflexivity || lia.
Qed.

Lemma odd_pow_unique (x y a b : Z) : Z.odd x = true -> Z.odd y = true ->
  (0 <= a)%Z -> (0 <= b)%Z -> (x * 2 ^ a = y * 2 ^ b)%Z -> a = b /\ x = y.
Proof.
  assert (Hgen : forall x y a b, Z.odd x = true -> (0 <= a)%Z -> (a < b)%Z ->
                   (x * 2 ^ a = y * 2 ^ b)%Z -> False).
  { clear. intros x y a b Hx Ha Hab H.
    replace b with (a + (1 + (b - a - 1)))%Z in H by ring.
    rewrite !Z.pow_add_r, Z.pow_1_r in H by lia.
    assert (0 < 2 ^ a)%Z by (apply Z.pow_pos_nonneg; lia).
    assert (x = 2 * (y * 2 ^ (b - a - 1)))%Z by nia.
    subst x. rewrite Z.odd_mul in Hx. discriminate. }
  intros Hx Hy Ha Hb H.
  destruct (Z.lt_trichotomy a b) as [Hab|[->|Hab]].
  - exfalso. exact (Hgen x y a b Hx Ha Hab H).
  - split; [reflexivity|]. assert (0 < 2 ^ b)%Z by (apply Z.pow_pos_nonneg; lia). nia.
  - exfalso. exact (Hgen y x b a Hy Hb Hab (eq_sym H)).
Qed.

Lemma tie_shape (m : positive) (e N : Z) :
  value200 m e = Some N -> Z.odd N = true ->
  exists j a, Zpos m = (j * 2 ^ a)%Z /\ (0 <= a)%Z /\ e = (- a - 3)%Z /\
              N = (25 * j)%Z /\ (0 < j)%Z.
Proof.
  unfold value200. intros Hv HN.
  destruct (0 <=? e)%Z eqn:He.
  - injection Hv as <-. exfalso.
    replace (200 * Zpos m * 2 ^ e)%Z with (2 * (100 * Zpos m * 2 ^ e))%Z in HN by ring.
    rewrite Z.odd_mul in HN. discriminate.
  - apply Z.leb_gt in He.
    destruct ((200 * Zpos m) mod 2 ^ (- e) =? 0)%Z eqn:Hm; [|discriminate].
    injection Hv as HNv. apply Z.eqb_eq in Hm.
    assert (H2 : (0 < 2 ^ (- e))%Z) by (apply Z.pow_pos_nonneg; lia).
    pose proof (Z.div_mod (200 * Zpos m) (2 ^ (- e)) ltac:(lia)) as Hdm.
    rewrite Hm, HNv, Z.add_0_r in Hdm.
    destruct (pos_odd_decomp m) as (j & a & Hj & Hjo & Ha & Hj0).
    assert (Heq : ((25 * j) * 2 ^ (a + 3) = N * 2 ^ (- e))%Z).
    { rewrite Z.pow_add_r by lia. rewrite Hj in Hdm. lia. }
    destruct (odd_pow_unique (25 * j) N (a + 3) (- e)) as [Hae HjN];
      [rewrite Z.odd_mul, Hjo; reflexivity|exact HN|lia|lia|exact Heq|].
    exists j, a. repeat split; try assumption; lia.
Qed.

Lemma pow2_mul (a b : Z) : (0 <= a)%Z -> (0 <= b)%Z -> (2 ^ a * 2 ^ b = 2 ^ (a + b))%Z.
Proof. intros. now rewrite Z.pow_add_r. Qed.

Lemma pow2_pos (a : Z) : (0 <= a)%Z -> (0 < 2 ^ a)%Z.
Proof. intros. apply Z.pow_pos_nonneg; lia. Qed.

(** Digits of [N] bound its size. *)
Lemma digits_bounds_lt (p : positive) (k : Z) : (0 <= k)%Z ->
  (Zpos p < 2 ^ k)%Z -> (Zpos (digits2_pos p) <= k)%Z.
Proof.
  intros Hk Hp. pose proof (digits2_pos_spec p) as [H1 _].
  destruct (Z.le_gt_cases (Zpos (digits2_pos p)) k) as [|Hgt]; [assumption|].
  assert (2 ^ k <= 2 ^ (Zpos (digits2_pos p) - 1))%Z by (apply Z.pow_le_mono_r; lia). lia.
Qed.

Lemma digits_bounds_ge (p : positive) (k : Z) : (0 <= k)%Z ->
  (2 ^ k <= Zpos p)%Z -> (k < Zpos (digits2_pos p))%Z.
Proof.
  intros Hk Hp. pose proof (digits2_pos_spec p) as [_ H2].
  destruct (Z.lt_ge_cases k (Zpos (digits2_pos p))) as [|Hge]; [assumption|].
  assert (2 ^ Zpos (digits2_pos p) <= 2 ^ k)%Z by (apply Z.pow_le_mono_r; lia). lia.
Qed.

Lemma mul100_tie (p : float) (s : bool) (m : positive) (e N : Z) :
  Prim2SF p = S754_finite s m e ->
  value200 m e = Some N -> Z.odd N = true -> (N < 25 * 2 ^ 48)%Z ->
  let dN := Zpos (digits2_pos (Z.to_pos N)) in
  Prim2SF (p * 100)%float = S754_finite s (Z.to_pos (N * 2 ^ (53 - dN))) (dN - 54) /\
  (5 <= dN <= 53)%Z /\ (25 <= N)%Z.
Proof.
  intros Hp Hv Ho Hb dN.
  destruct (tie_shape m e N Hv Ho) as (j & a & Hm & Ha & He & HN & Hj).
  pose proof (Prim2SF_valid p) as Hval. rewrite Hp in Hval.
  unfold valid_binary, bounded, canonical_mantissa in Hval.
  apply andb_prop in Hval as [Hc _]. apply Z.eqb_eq in Hc.
  destruct j as [|jp|jp]; try lia.
  rewrite (digits2_pos_shift m jp a Ha Hm) in Hc.
  pose proof (digits2_pos_spec jp) as Hjb.
  set (dj := Zpos (digits2_pos jp)) in *.
  unfold fexp, emin, FloatOps.prec, FloatOps.emax in Hc.
  assert (Ha2 : a = (53 - dj)%Z) by lia.
  assert (HNp : Zpos (Z.to_pos N) = N) by (apply Z2Pos.id; lia).
  pose proof (digits2_pos_spec (Z.to_pos N)) as HNb. fold dN in HNb. rewrite HNp in HNb.
  assert (HdN5 : (5 <= dN)%Z).
  { enough (4 < dN)%Z by lia. unfold dN. apply (digits_bounds_ge _ 4); [lia|]. rewrite HNp. simpl. lia. }
  assert (HdN53 : (dN <= 53)%Z).
  { unfold dN. apply digits_bounds_lt; [lia|]. rewrite HNp.
    change (2 ^ 53)%Z with (32 * 2 ^ 48)%Z. lia. }
  split; [|split; [lia|lia]].
  rewrite mul_spec, Hp.
  replace (Prim2SF 100%float) with (S754_finite false 7036874417766400 (-46)) by reflexivity.
  unfold SF64mul, SFmul. rewrite xorb_false_r.
  replace (dN - 54)%Z with (e + -46 + (dN + a - 5))%Z by lia.
  assert (HQ : Zpos (Z.to_pos (N * 2 ^ (53 - dN))) = (N * 2 ^ (53 - dN))%Z).
  { apply Z2Pos.id. pose proof (pow2_pos (53 - dN)). nia. }
  assert (HM : Zpos (m * 7036874417766400) = (Zpos (Z.to_pos (N * 2 ^ (53 - dN))) * 2 ^ (dN + a - 5))%Z).
  { rewrite HQ, Pos2Z.inj_mul, Hm, HN.
    change (Zpos 7036874417766400) with (25 * 2 ^ 48)%Z.
    assert (P1 : (2 ^ (53 - dN) * 2 ^ (dN + a - 5) = 2 ^ a * 2 ^ 48)%Z)
      by (rewrite !pow2_mul by lia; f_equal; ring).
    transitivity (25 * Zpos jp * (2 ^ a * 2 ^ 48))%Z; [ring|].
    rewrite <- P1. ring. }
  apply round_aux_exact; [lia|exact HM| |lia].
  rewrite (digits2_pos_shift _ _ (dN + a - 5) ltac:(lia) HM).
  assert (HdQ : Zpos (digits2_pos (Z.to_pos (N * 2 ^ (53 - dN)))) = 53%Z).
  { apply digits2_pos_unique. rewrite HQ.
    assert (E1 : (2 ^ (dN - 1) * 2 ^ (53 - dN) = 2 ^ (53 - 1))%Z)
      by (rewrite pow2_mul by lia; f_equal; ring).
    assert (E2 : (2 ^ dN * 2 ^ (53 - dN) = 2 ^ 53)%Z)
      by (rewrite pow2_mul by lia; f_equal; ring).
    pose proof (pow2_pos (53 - dN)). nia. }
  rewrite HdQ. unfold fexp, emin. lia.
Qed.

Lemma even_hundredths_range (N : Z) : (0 <= N)%Z ->
  (N / 2 <= even_hundredths N <= N / 2 + 1)%Z.
Proof. intros. unfold even_hundredths. destruct (Z.even (N / 2)); lia. Qed.

Lemma int64_to_float_pos (z : Z) : (0 <= z < 2 ^ 63)%Z ->
  Prim2SF (int64_to_float z) = binary_normalize 53 1024 z 0 false.
Proof.
  intros Hz. unfold int64_to_float.
  replace (z =? -9223372036854775808)%Z with false by (symmetry; apply Z.eqb_neq; lia).
  replace (z <? 0)%Z with false by (symmetry; apply Z.ltb_ge; lia).
  rewrite of_uint63_spec, Uint63.of_Z_spec, Z.mod_small by (change Uint63Axioms.wB with (2 ^ 63)%Z; lia).
  reflexivity.
Qed.

Lemma int64_to_float_neg (z : Z) : (0 < z < 2 ^ 63)%Z ->
  int64_to_float (- z) = (- int64_to_float z)%float.
Proof.
  intros Hz. unfold int64_to_float.
  replace (- z =? -9223372036854775808)%Z with false by (symmetry; apply Z.eqb_neq; lia).
  replace (- z <? 0)%Z with true by (symmetry; apply Z.ltb_lt; lia).
  replace (z =? -9223372036854775808)%Z with false by (symmetry; apply Z.eqb_neq; lia).
  replace (z <? 0)%Z with false by (symmetry; apply Z.ltb_ge; lia).
  now rewrite Z.opp_involutive.
Qed.

Lemma rint_tie (x : float) (s : bool) (N dN : Z) :
  Prim2SF x = S754_finite s (Z.to_pos (N * 2 ^ (53 - dN))) (dN - 54) ->
  Z.odd N = true -> (25 <= N)%Z -> (N < 25 * 2 ^ 48)%Z -> (5 <= dN <= 53)%Z ->
  rint x = int64_to_float (if s then - even_hundredths N else even_hundredths N).
Proof.
  intros Hx Ho HN1 HN2 HdN.
  remember (53 - dN)%Z as u eqn:Hu_def.
  assert (Hu : (0 <= u)%Z) by lia.
  assert (Hpu : (0 < 2 ^ u)%Z) by (apply pow2_pos; exact Hu).
  remember (Z.to_pos (N * 2 ^ u)) as Q1 eqn:HQ1_def.
  assert (HQ1 : Zpos Q1 = (N * 2 ^ u)%Z) by (rewrite HQ1_def; apply Z2Pos.id; nia).
  assert (H52 : Prim2SF two52 = S754_finite false 4503599627370496 0) by reflexivity.
  assert (Hlt : (abs x <? two52)%float = true).
  { rewrite ltb_spec, abs_spec, Hx, H52. cbn [SFabs]. unfold SFltb, SFcompare.
    replace (dN - 54 ?= 0)%Z with Lt by (symmetry; apply Z.compare_lt_iff; lia).
    reflexivity. }
  assert (Hsg : get_sign x = s).
  { assert (Hz : (x =? zero)%float = false)
      by (rewrite FloatAxioms.eqb_spec, Hx; destruct s; reflexivity).
    unfold get_sign, is_zero. rewrite Hz, ltb_spec, Hx. destruct s; reflexivity. }
  set (E := even_hundredths N).
  pose proof (even_hundredths_range N ltac:(lia)) as HE. fold E in HE.
  assert (HN2' : (N / 2 < 25 * 2 ^ 47)%Z).
  { apply Z.div_lt_upper_bound; [lia|]. change (2 ^ 48)%Z with (2 * 2 ^ 47)%Z in HN2. lia. }
  assert (HNodd : N = (2 * (N / 2) + 1)%Z).
  { rewrite (Z.div2_odd N) at 1. rewrite Ho, Z.div2_div. reflexivity. }
  (* abs x + 2^52 rounds the half-integer |x| to the even integer 2^52 + E *)
  assert (Hadd : Prim2SF (abs x + two52)%float = S754_finite false (Z.to_pos (2 ^ 52 + E)) 0).
  { rewrite add_spec, abs_spec, Hx, H52. cbn [SFabs].
    unfold SF64add, SFadd, FloatOps.prec, FloatOps.emax.
    replace (Z.min (dN - 54) 0) with (dN - 54)%Z by lia.
    unfold shl_align at 1. rewrite Z.sub_diag.
    unfold shl_align.
    replace (dN - 54 - 0)%Z with (Zneg (Z.to_pos (54 - dN)))
      by (rewrite <- Pos2Z.opp_pos, Z2Pos.id; lia).
    cbn [fst cond_Zopp].
    rewrite pos_iter_xO, (Z2Pos.id (54 - dN)) by lia.
    change (Zpos 4503599627370496) with (2 ^ 52)%Z.
    assert (Hsum : (Zpos Q1 + 2 ^ 52 * 2 ^ (54 - dN) = 2 ^ u * (N + 2 ^ 53))%Z).
    { rewrite HQ1. replace (54 - dN)%Z with (1 + u)%Z by lia.
      rewrite Z.pow_add_r by lia. change (2 ^ 53)%Z with (2 ^ 52 * 2 ^ 1)%Z. ring. }
    remember (Z.to_pos (Zpos Q1 + 2 ^ 52 * 2 ^ (54 - dN))) as P2 eqn:HP2_def.
    assert (HP2 : Zpos P2 = (2 ^ u * (N + 2 ^ 53))%Z)
      by (rewrite HP2_def, Z2Pos.id; [exact Hsum|nia]).
    rewrite Hsum, <- HP2.
    cbn [binary_normalize]. unfold binary_round.
    assert (Hd2 : Zpos (digits2_pos P2) = (54 + u)%Z).
    { apply digits2_pos_unique. rewrite HP2.
      replace (54 + u - 1)%Z with (u + 53)%Z by ring.
      rewrite !Z.pow_add_r by lia.
      change (2 ^ 54)%Z with (2 * 2 ^ 53)%Z.
      assert (2 ^ 53 = 9007199254740992)%Z by reflexivity. split; nia. }
    rewrite Hd2.
    replace (fexp 53 1024 (54 + u + (dN - 54))) with 0%Z by (unfold fexp, emin; lia).
    unfold shl_align.
    replace (0 - (dN - 54))%Z with (Zpos (Z.to_pos (54 - dN))) by (rewrite Z2Pos.id; lia).
    cbv iota.
    replace (S754_finite false (Z.to_pos (2 ^ 52 + E)) 0)
      with (S754_finite false (Z.to_pos (2 ^ 52 + E)) (dN - 54 + (54 - dN))) by (f_equal; ring).
    apply round_aux_half with (q := (2 ^ 52 + N / 2)%Z).
    - lia.
    - assert (0 <= N / 2)%Z by (apply Z.div_pos; lia). lia.
    - rewrite HP2. replace (54 - dN)%Z with (u + 1)%Z by lia.
      replace (u + 1 - 1)%Z with u by ring.
      rewrite Z.pow_add_r, Z.pow_1_r by lia.
      rewrite HNodd at 1. change (2 ^ 53)%Z with (2 * 2 ^ 52)%Z. ring.
    - rewrite Hd2. unfold fexp, emin. lia.
    - unfold E, even_hundredths.
      rewrite Z.even_add. change (Z.even (2 ^ 52)) with true.
      destruct (Z.even (N / 2)); simpl; ring.
    - lia.
    - replace (dN - 54 + (54 - dN))%Z with 0%Z by ring.
      destruct (2 ^ 52 + E)%Z as [|rp|rp] eqn:Er; try lia.
      cbn [Zdigits2].
      replace (Zpos (digits2_pos rp)) with 53%Z; [reflexivity|].
      symmetry. apply digits2_pos_unique. rewrite <- Er.
      change (2 ^ (53 - 1))%Z with (2 ^ 52)%Z.
      change (2 ^ 53)%Z with (2 * 2 ^ 52)%Z.
      change (2 ^ 47)%Z with (2 ^ 52 / 32)%Z in HN2'.
      assert (2 ^ 52 = 4503599627370496)%Z by reflexivity. lia.
    - lia. }
  assert (Hy : Prim2SF (abs x + two52 - two52)%float = binary_normalize 53 1024 E 0 false).
  { rewrite sub_spec, Hadd, H52. unfold SF64sub, SFsub, FloatOps.prec, FloatOps.emax.
    cbn [shl_align fst cond_Zopp Z.min].
    change (Z.min 0 0) with 0%Z. unfold shl_align. rewrite Z.sub_diag. cbn [fst].
    rewrite Z2Pos.id by lia. f_equal. lia. }
  assert (HE63 : (0 < E < 2 ^ 63)%Z).
  { assert (12 <= N / 2)%Z by (apply Z.div_le_lower_bound; lia).
    change (2 ^ 63)%Z with (2 ^ 16 * 2 ^ 47)%Z. lia. }
  unfold rint. rewrite Hlt, Hsg. cbv zeta.
  destruct s.
  - rewrite int64_to_float_neg by exact HE63. apply Prim2SF_inj.
    rewrite !opp_spec, Hy, int64_to_float_pos by lia. reflexivity.
  - apply Prim2SF_inj. rewrite Hy, int64_to_float_pos by lia. reflexivity.
Qed.

(** C9 (amended): a product [p] exactly halfway between two 2-decimal
    values (200 * p is an odd integer N), with |p| < 2^45 (N < 25 * 2^48),
    is rounded to the neighbour whose last digit is even: the derived
    column (which holds [np_round2] of the product, by C1) holds the float
    nearest to E/100, where E = [even_hundredths N] is that neighbour in
    hundredths, with the sign of [p].  E is an integer below 2^53, so
    [int64_to_float E] is E exactly, and the IEEE division by 100 rounds
    E/100 to the nearest float. *)
Theorem np_round2_half_even (p : float) (s : bool) (m : positive) (e N : Z) :
  Prim2SF p = S754_finite s m e ->
  value200 m e = Some N -> Z.odd N = true -> (N < 25 * 2 ^ 48)%Z ->
  np_round2 p
  = (int64_to_float (if s then - even_hundredths N else even_hundredths N) / 100)%float.
Proof.
  intros Hp Hv Ho Hb.
  destruct (mul100_tie p s m e N Hp Hv Ho Hb) as (Hx & HdN & HN).
  unfold np_round2.
  rewrite (rint_tie _ s N _ Hx Ho HN Hb HdN).
  reflexivity.
Qed.

Lemma np_round2_half_even_witness :
  Prim2SF 0.125%float = S754_finite false 4503599627370496 (-55) /\
  value200 4503599627370496 (-55) = Some 25%Z /\ Z.odd 25 = true /\
  (25 < 25 * 2 ^ 48)%Z /\
  np_round2 0.125%float = (int64_to_float 12 / 100)%float.
Proof.
  split; [vm_compute; reflexivity|].
  split; [vm_compute; reflexivity|].
  split; [reflexivity|].
  split; [lia|].
  exact (np_round2_half_even 0.125%float false 4503599627370496 (-55) 25
           ltac:(vm_compute; reflexivity) ltac:(vm_compute; reflexivity)
           ltac:(reflexivity) ltac:(lia)).
Defined.

(** ** Effects of the stages *)

(** [assign_items] changes the heap only. *)
Lemma assign_items_heap_only data kwargs s r s' :
  pure_items kwargs -> assign_items data kwargs s = (r, s') ->
  s' = set_heap (heap s') s.
Proof.
  revert s r s'. induction kwargs as [|[k v] rest IH]; intros s r s' Hpure Hrun.
  - simpl in Hrun. inversion Hrun; subst. by destruct s'.
  - inversion Hpure as [|? ? Hv Hrest]; subst. simpl in Hv. simpl in Hrun.
    unfold bind at 1, deref in Hrun.
    destruct (heap s !! data) as [x|] eqn:Hx; [|inversion Hrun; subst; by destruct s'].
    unfold bind at 1 in Hrun.
    destruct (v x s) as [[col|e] s1] eqn:Ev;
      (assert (s1 = s) as -> by (specialize (Hv x s); by rewrite Ev in Hv)).
    + rewrite (bind_Ok _ _ _ _ _ (setitem_Ok _ _ _ k col Hx)) in Hrun.
      rewrite (IH _ _ _ Hrest Hrun). reflexivity.
    + inversion Hrun; subst. by destruct s'.
Qed.

(** [transform] changes the heap, and the log by its completion line when
    it succeeds. *)
Lemma transform_state l rates_dict s r s' :
  transform l rates_dict s = (r, s') ->
  files s' = files s /\ dbs s' = dbs s /\ web s' = web s /\
  log s' = match r with
           | Ok _ => (log s ++ ["Data transformation complete. Initiating Loading process"])%list
           | Err _ => log s
           end.
Proof.
  intros Hrun. destruct (heap s !! l) as [df|] eqn:Hl.
  - rewrite (transform_unfold _ _ _ _ Hl) in Hrun.
    destruct (assign_items _ _ _) as [[u|e] s2] eqn:Ea;
      pose proof (assign_items_heap_only _ _ _ _ _ (transform_items_pure rates_dict) Ea) as Hs2;
      rewrite Hs2 in Hrun; inversion Hrun; subst; simpl; done.
  - unfold transform, assign, bind, deref in Hrun. rewrite Hl in Hrun.
    inversion Hrun; subst. done.
Qed.

Lemma transform_can_write l rates_dict s r s' :
  transform l rates_dict s = (r, s') -> can_write s' = can_write s.
Proof.
  intros Hrun. destruct (heap s !! l) as [df|] eqn:Hl.
  - rewrite (transform_unfold _ _ _ _ Hl) in Hrun.
    destruct (assign_items _ _ _) as [[u|e] s2] eqn:Ea;
      pose proof (assign_items_heap_only _ _ _ _ _ (transform_items_pure rates_dict) Ea) as Hs2;
      rewrite Hs2 in Hrun; inversion Hrun; subst; simpl; done.
  - unfold transform, assign, bind, deref in Hrun. rewrite Hl in Hrun.
    inversion Hrun; subst. done.
Qed.

Lemma extract_can_write read_table url table_attribs s r s' :
  extract read_table url table_attribs s = (r, s') -> can_write s' = can_write s.
Proof.
  unfold extract, bind, requests_get, raise_for_status, raise, ret, log_progress, lift, alloc.
  destruct (web s url) as [resp|]; [|intros [= <- <-]; auto].
  destruct (_ && _)%Z; [intros [= <- <-]; auto|].
  destruct (read_html _ _) as [frames|e]; [|intros [= <- <-]; simpl; auto].
  destruct (getindex0 frames); intros [= <- <-]; simpl; auto.
Qed.

Lemma find_app_first {A} (f : A -> bool) (pre post : list A) (x : A) :
  (forall y, In y pre -> f y = false) -> f x = true ->
  List.find f (pre ++ x :: post)%list = Some x.
Proof.
  induction pre as [|y pre IH]; intros Hpre Hx; simpl.
  - by rewrite Hx.
  - rewrite (Hpre y) by (by left). apply IH; [|done]. intros z Hz. apply Hpre. by right.
Qed.

Lemma set_col_same cols k v : lookup_col cols k = Some v -> set_col cols k v = cols.
Proof.
  induction cols as [|[k0 c] r IH]; simpl; [done|].
  destruct (String.eqb k k0) eqn:E.
  - intros [= ->]. apply String.eqb_eq in E. by subst.
  - intros H. by rewrite IH.
Qed.

(** The successful run of [extract]. *)
Lemma extract_Ok_first (read_table : element -> result (list frame)) (st : state)
  (url : string) (table_attribs : option (list (string * string))) (r : response)
  (pre post : list element) (e : element) (df : frame) (more : list frame) :
  web st url = Some r ->
  ((400 <=? status_code r) && (status_code r <? 600))%Z = false ->
  resp_doc r = (pre ++ e :: post)%list ->
  (forall e', In e' pre -> tag_matches "table" (resolve_attribs table_attribs) e' = false) ->
  tag_matches "table" (resolve_attribs table_attribs) e = true ->
  read_table e = Ok (df :: more) ->
  exists st',
    extract read_table url table_attribs st = (Ok (fresh (dom (heap st))), st') /\
    heap st' = <[fresh (dom (heap st)) := df]> (heap st) /\
    log st' = (log st ++ ["Data extraction complete. Initiating Transformation process"])%list /\
    files st' = files st /\ dbs st' = dbs st.
Proof.
  intros Hweb Hstatus Hdoc Hpre He Hread. unfold extract.
  assert (Hget : requests_get url st = (Ok r, st)) by (unfold requests_get; by rewrite Hweb).
  rewrite (bind_Ok _ _ _ _ _ Hget).
  assert (Hrs : raise_for_status r st = (Ok tt, st)) by (unfold raise_for_status; by rewrite Hstatus).
  rewrite (bind_Ok _ _ _ _ _ Hrs).
  unfold soup_find. rewrite Hdoc, (find_app_first _ _ _ _ Hpre He).
  unfold bind, log_progress, lift. simpl. rewrite Hread. simpl.
  eexists. split; [reflexivity|]. done.
Qed.

(** ** Properties of [extract] *)

(** X1: when [requests.get] fails, [extract] raises the connection error
    and changes nothing: no log line, no new object. *)
Theorem extract_connection_error (read_table : element -> result (list frame)) (st : state)
  (url : string) (table_attribs : option (list (string * string))) :
  web st url = None ->
  extract read_table url table_attribs st = (Err (ConnectionError url), st).
Proof.
  intros Hweb. unfold extract, bind at 1, requests_get. by rewrite Hweb.
Qed.

(** X2: an HTTP error status (400 to 599) makes [extract] raise
    [HTTPError] with that status, before anything is logged or parsed. *)
Theorem extract_http_error (read_table : element -> result (list frame)) (st : state)
  (url : string) (table_attribs : option (list (string * string))) (r : response) :
  web st url = Some r -> (400 <= status_code r < 600)%Z ->
  extract read_table url table_attribs st = (Err (HTTPError (status_code r)), st).
Proof.
  intros Hweb Hst. unfold extract.
  assert (Hget : requests_get url st = (Ok r, st)) by (unfold requests_get; by rewrite Hweb).
  rewrite (bind_Ok _ _ _ _ _ Hget).
  unfold bind, raise_for_status.
  replace ((400 <=? status_code r) && (status_code r <? 600))%Z with true
    by (symmetry; apply andb_true_iff; split; [apply Z.leb_le|apply Z.ltb_lt]; lia).
  reflexivity.
Qed.

(** X3: on a page fetched without error, [extract] parses the first
    table element (in document order) that matches the attributes, and
    returns the first DataFrame pandas reads from it, as a new object; it
    logs its one line and touches neither files nor databases. *)
Theorem extract_first_match (read_table : element -> result (list frame)) (st : state)
  (url : string) (table_attribs : option (list (string * string))) (r : response)
  (pre post : list element) (e : element) (df : frame) (more : list frame) :
  web st url = Some r ->
  ((400 <=? status_code r) && (status_code r <? 600))%Z = false ->
  resp_doc r = (pre ++ e :: post)%list ->
  (forall e', In e' pre -> tag_matches "table" (resolve_attribs table_attribs) e' = false) ->
  tag_matches "table" (resolve_attribs table_attribs) e = true ->
  read_table e = Ok (df :: more) ->
  exists st',
    extract read_table url table_attribs st = (Ok (fresh (dom (heap st))), st') /\
    heap st' = <[fresh (dom (heap st)) := df]> (heap st) /\
    log st' = (log st ++ ["Data extraction complete. Initiating Transformation process"])%list /\
    files st' = files st /\ dbs st' = dbs st.
Proof.
  intros Hweb Hstatus Hdoc Hpre He Hread.
  exact (extract_Ok_first _ _ _ _ _ _ _ _ _ _ Hweb Hstatus Hdoc Hpre He Hread).
Qed.

(** ** Properties of [transform] *)

(** X4: a table without the "Market cap (US$ billion)" column makes
    [transform] raise [KeyError] for that label, whatever the rates. *)
Theorem transform_missing_market_cap (st : state) (l : loc) (df : frame)
  (rates_dict : gmap string float) :
  heap st !! l = Some df -> lookup_col (columns df) MC_USD = None ->
  exists st', transform l rates_dict st = (Err (KeyError MC_USD), st') /\ log st' = log st.
Proof.
  intros Hl Hmc. rewrite (transform_unfold _ _ _ _ Hl). unfold transform_items.
  rewrite (assign_items_cons_Err _ _ df _ _ _ (KeyError MC_USD)).
  - eexists. split; [reflexivity|]. done.
  - by rewrite heap_set_heap, lookup_insert_eq.
  - unfold convert, bind, lift, getitem. by rewrite Hmc.
Qed.

(** X5: a market-cap column of text with at least one row makes
    [transform] raise [TypeError] (a string times a float), and nothing is
    logged. *)
Theorem transform_text_market_cap (st : state) (l : loc) (df : frame)
  (rates_dict : gmap string float) (x : string) (xs : list string) (g : float) :
  heap st !! l = Some df -> lookup_col (columns df) MC_USD = Some (ColObj (x :: xs)) ->
  rates_dict !! "GBP" = Some g ->
  exists st',
    transform l rates_dict st
    = (Err (TypeError "can't multiply sequence by non-int of type 'float'"), st') /\
    log st' = log st.
Proof.
  intros Hl Hmc Hg. rewrite (transform_unfold _ _ _ _ Hl). unfold transform_items.
  rewrite (assign_items_cons_Err _ _ df _ _ _ (TypeError "can't multiply sequence by non-int of type 'float'")).
  - eexists. split; [reflexivity|]. done.
  - by rewrite heap_set_heap, lookup_insert_eq.
  - by rewrite (convert_mul _ _ _ _ _ _ Hmc Hg).
Qed.

(** X6: [transform] never writes a file or a database; it appends its
    completion line to the log when it returns, and logs nothing when it
    raises. *)
Theorem transform_effects (st st' : state) (l : loc) (rates_dict : gmap string float)
  (r : result loc) :
  transform l rates_dict st = (r, st') ->
  files st' = files st /\ dbs st' = dbs st /\
  log st' = match r with
            | Ok _ => (log st ++ ["Data transformation complete. Initiating Loading process"])%list
            | Err _ => log st
            end.
Proof.
  intros Hrun. destruct (transform_state _ _ _ _ _ Hrun) as (Hf & Hd & _ & Hlog). done.
Qed.

(** X7: [transform] applied to its own output yields a table with the
    same columns: the derived columns are recomputed from the unchanged
    market-cap column and overwritten in place. *)
Theorem transform_idempotent (st : state) (l : loc) (df : frame)
  (rates_dict : gmap string float) (mc : column) (v : list float) (g e i : float) :
  heap st !! l = Some df ->
  lookup_col (columns df) MC_USD = Some mc -> col_floats mc = Some v ->
  rates_dict !! "GBP" = Some g -> rates_dict !! "EUR" = Some e ->
  rates_dict !! "INR" = Some i ->
  exists l1 st1 df1 l2 st2,
    transform l rates_dict st = (Ok l1, st1) /\ heap st1 !! l1 = Some df1 /\
    transform l1 rates_dict st1 = (Ok l2, st2) /\ heap st2 !! l2 = Some df1.
Proof.
  intros Hl Hmc Hv Hg He Hi.
  destruct (transform_Ok _ _ _ _ _ _ _ _ _ Hl Hmc Hv Hg He Hi) as (st1 & Hrun1 & Hdf1 & _).
  match type of Hdf1 with _ = Some ?d => remember d as df1 eqn:Edf1 end.
  assert (Hmc1 : lookup_col (columns df1) MC_USD = Some mc)
    by (rewrite Edf1; simpl; by rewrite !lookup_set_col_ne).
  destruct (transform_Ok _ _ _ _ _ _ _ _ _ Hdf1 Hmc1 Hv Hg He Hi) as (st2 & Hrun2 & Hdf2 & _).
  do 5 eexists. split; [exact Hrun1|]. split; [exact Hdf1|].
  split; [exact Hrun2|]. rewrite Hdf2. f_equal.
  set (conv := fun r => ColFloat (map (fun y => np_round2 (y * r)%float) v)).
  assert (HG : lookup_col (columns df1) "MC_GBP_Billion" = Some (conv g))
    by (rewrite Edf1; simpl; rewrite !lookup_set_col_ne by done; apply lookup_set_col_eq).
  assert (HE : lookup_col (columns df1) "MC_EUR_Billion" = Some (conv e))
    by (rewrite Edf1; simpl; rewrite lookup_set_col_ne by done; apply lookup_set_col_eq).
  assert (HI : lookup_col (columns df1) "MC_INR_Billion" = Some (conv i))
    by (rewrite Edf1; simpl; apply lookup_set_col_eq).
  cbn [columns]. change (ColFloat (map (fun y => np_round2 (y * g)%float) v)) with (conv g).
  change (ColFloat (map (fun y => np_round2 (y * e)%float) v)) with (conv e).
  change (ColFloat (map (fun y => np_round2 (y * i)%float) v)) with (conv i).
  rewrite (set_col_same _ _ _ HG), (set_col_same _ _ _ HE), (set_col_same _ _ _ HI).
  by destruct df1.
Qed.

(** ** Effects of [extract], [load_to_csv], [load_to_db], [run_query] *)

Lemma extract_state read_table url table_attribs s r s' :
  extract read_table url table_attribs s = (r, s') ->
  files s' = files s /\ dbs s' = dbs s /\ web s' = web s /\
  match r with
  | Ok _ => log s' = (log s ++ ["Data extraction complete. Initiating Transformation process"])%list
  | Err _ => log s' = log s \/
             log s' = (log s ++ ["Data extraction complete. Initiating Transformation process"])%list
  end.
Proof.
  unfold extract, bind, requests_get, raise_for_status, raise, ret, log_progress, lift, alloc.
  destruct (web s url) as [resp|]; [|intros [= <- <-]; auto].
  destruct (_ && _)%Z; [intros [= <- <-]; auto|].
  destruct (read_html _ _) as [frames|e]; [|intros [= <- <-]; simpl; auto].
  destruct (getindex0 frames); intros [= <- <-]; simpl; auto.
Qed.

Lemma load_to_csv_Ok float_repr l df output_path s :
  heap s !! l = Some df -> can_write s (resolve_output_path output_path) = true ->
  load_to_csv float_repr l output_path s
  = (Ok tt, set_log (log s ++ ["Data saved to CSV file"])%list
              (set_files (<[resolve_output_path output_path
                            := string_of_list_ascii (to_csv_text float_repr df)]> (files s)) s)).
Proof.
  intros Hl Hw. unfold load_to_csv, bind, deref, to_csv, log_progress. rewrite Hl, Hw.
  reflexivity.
Qed.

Lemma load_to_csv_state float_repr l output_path s r s' :
  load_to_csv float_repr l output_path s = (r, s') ->
  heap s' = heap s /\ dbs s' = dbs s /\ web s' = web s /\
  match r with
  | Ok _ => log s' = (log s ++ ["Data saved to CSV file"])%list /\
            exists text, files s' = <[resolve_output_path output_path := text]> (files s)
  | Err _ => log s' = log s /\ files s' = files s
  end.
Proof.
  destruct (heap s !! l) as [df|] eqn:Hl.
  - destruct (can_write s (resolve_output_path output_path)) eqn:Hw.
    + rewrite (load_to_csv_Ok _ _ _ _ _ Hl Hw). intros [= <- <-]. simpl. eauto 10.
    + unfold load_to_csv, bind, deref, to_csv. rewrite Hl, Hw. intros [= <- <-]. auto.
  - unfold load_to_csv, bind, deref. rewrite Hl. intros [= <- <-]. auto.
Qed.

Lemma load_to_db_Ok l df sql_connection table_name s :
  heap s !! l = Some df ->
  let con := resolve_connection sql_connection in
  let name := resolve_table_name table_name in
  load_to_db l sql_connection table_name s
  = (Ok tt, set_log (log s ++ ["SQL Connection initiated";
                               "Data loaded to Database as a table, Executing queries"])%list
              (set_dbs (<[con := <[name := df]> (default ∅ (dbs s !! con))]> (dbs s)) s)).
Proof.
  intros Hl con name. unfold load_to_db, bind, deref, log_progress, to_sql. simpl.
  rewrite Hl. simpl. rewrite insert_delete_eq, <- app_assoc. reflexivity.
Qed.

Lemma load_to_db_state l sql_connection table_name s r s' :
  load_to_db l sql_connection table_name s = (r, s') ->
  heap s' = heap s /\ files s' = files s /\ web s' = web s /\
  match r with
  | Ok _ => log s' = (log s ++ ["SQL Connection initiated";
                                "Data loaded to Database as a table, Executing queries"])%list
  | Err _ => log s' = (log s ++ ["SQL Connection initiated"])%list
  end.
Proof.
  destruct (heap s !! l) as [df|] eqn:Hl.
  - rewrite (load_to_db_Ok _ _ _ _ _ Hl). intros [= <- <-]. simpl. auto.
  - unfold load_to_db, bind, deref, log_progress. simpl. rewrite Hl. intros [= <- <-]. auto.
Qed.

Lemma run_query_state sql_execute q sql_connection s r s' :
  run_query sql_execute q sql_connection s = (r, s') ->
  heap s' = heap s /\ log s' = log s /\ files s' = files s /\ web s' = web s.
Proof.
  unfold run_query, bind, ret, connect.
  destruct sql_connection as [c|]; simpl.
  - destruct (sql_execute _ q) as [[db' rows]|e]; intros [= <- <-]; auto.
  - destruct (sql_execute _ q) as [[db' rows]|e]; intros [= <- <-]; auto.
Qed.

(** A statement that leaves the database as it is, on an open database,
    leaves the whole state as it is. *)
Lemma run_query_readonly sql_execute q c db rows s :
  dbs s !! c = Some db -> sql_execute db q = Ok (db, rows) ->
  run_query sql_execute q (Some c) s = (Ok tt, s).
Proof.
  intros Hc Hq. unfold run_query, bind, ret. simpl. rewrite Hc. simpl. rewrite Hq.
  rewrite insert_id by done. by destruct s.
Qed.

(** ** Properties of the loading stages *)

(** X8: [load_to_csv] writes one file, at [output_path] or, when that is
    missing or empty, at ./data/final_data.csv, holding the CSV text of
    the table, provided that path can be written; every other file, every
    object and every database is left as it was.  When the path cannot be
    written, it raises [OSError] and changes nothing, not even the log. *)
Theorem load_to_csv_effects (float_repr : float -> string) (st : state) (l : loc) (df : frame)
  (output_path : option string) :
  heap st !! l = Some df ->
  let path := resolve_output_path output_path in
  (can_write st path = true ->
   exists st',
     load_to_csv float_repr l output_path st = (Ok tt, st') /\
     files st' !! path = Some (string_of_list_ascii (to_csv_text float_repr df)) /\
     (forall p, p <> path -> files st' !! p = files st !! p) /\
     heap st' = heap st /\ dbs st' = dbs st /\
     log st' = (log st ++ ["Data saved to CSV file"])%list) /\
  (can_write st path = false ->
   load_to_csv float_repr l output_path st = (Err (OSError path), st)).
Proof.
  intros Hl path. split.
  - intros Hw. rewrite (load_to_csv_Ok _ _ _ _ _ Hl Hw). eexists. split; [reflexivity|].
    simpl. fold path. split; [apply lookup_insert_eq|]. split; [|done].
    intros p Hp. by apply lookup_insert_ne.
  - intros Hw. unfold load_to_csv, bind, deref, to_csv. rewrite Hl. fold path. by rewrite Hw.
Qed.

(** X9: [load_to_db] replaces one table, named [table_name] or
    "Largest_banks", in one database, [sql_connection] or Banks.db (created
    empty if absent), by the DataFrame; the other tables of that database,
    the other databases, the files and the objects are left as they were,
    and the two progress lines are logged in order. *)
Theorem load_to_db_effects (st : state) (l : loc) (df : frame)
  (sql_connection : option string) (table_name : option string) :
  heap st !! l = Some df ->
  let con := resolve_connection sql_connection in
  let name := resolve_table_name table_name in
  exists st' db',
    load_to_db l sql_connection table_name st = (Ok tt, st') /\
    dbs st' !! con = Some db' /\ db' !! name = Some df /\
    (forall t, t <> name -> db' !! t = default ∅ (dbs st !! con) !! t) /\
    (forall c, c <> con -> dbs st' !! c = dbs st !! c) /\
    files st' = files st /\ heap st' = heap st /\
    log st' = (log st ++ ["SQL Connection initiated";
                          "Data loaded to Database as a table, Executing queries"])%list.
Proof.
  intros Hl con name. rewrite (load_to_db_Ok _ _ _ _ _ Hl). fold con name.
  do 2 eexists. split; [reflexivity|]. simpl.
  split; [apply lookup_insert_eq|]. split; [apply lookup_insert_eq|].
  split; [intros t Ht; by apply lookup_insert_ne|].
  split; [intros c Hc; by apply lookup_insert_ne|]. done.
Qed.

(** X10: [run_query] only reads and writes the database: it never logs,
    never writes a file and never changes an object, whether the statement
    succeeds or raises. *)
Theorem run_query_effects (sql_execute : database -> string -> result (database * list (list string)))
  (q : string) (sql_connection : option string) (st st' : state) (r : result unit) :
  run_query sql_execute q sql_connection st = (r, st') ->
  log st' = log st /\ files st' = files st /\ heap st' = heap st.
Proof.
  intros H. destruct (run_query_state _ _ _ _ _ _ H) as (Hh & Hlog & Hf & _). done.
Qed.

(** ** The script *)

Lemma bind_inv {A B} (m : M A) (k : A -> M B) s r s' :
  bind m k s = (r, s') ->
  (exists e, m s = (Err e, s') /\ r = Err e) \/
  (exists a s1, m s = (Ok a, s1) /\ k a s1 = (r, s')).
Proof.
  unfold bind. destruct (m s) as [[a|e] s1]; [right; eauto|].
  intros [= <- <-]. left. eauto.
Qed.

Ltac chase_log :=
  unfold main_log_lines; simpl take;
  repeat match goal with H : log ?x = _ |- context [log ?x] => rewrite H end;
  simpl; rewrite <- ?app_assoc; reflexivity.

Ltac chase_files :=
  simpl;
  repeat match goal with H : files ?x = _ |- context [files ?x] => rewrite H end;
  simpl; eauto.

Ltac main_case k :=
  exists k; split; [chase_log|];
  split; [split; [intros; (discriminate || reflexivity) | intros; (lia || reflexivity)]|];
  split; intros; [try lia; chase_files | try lia; chase_files].

(** X11: every run of the script appends a prefix of its eight progress
    lines to the log, all eight exactly when it completes; the CSV file is
    written exactly when the log reaches "Data saved to CSV file", so a
    run that raises in [extract] or [transform] writes no file. *)
Theorem main_log_prefix
  (sql_execute : database -> string -> result (database * list (list string)))
  (read_table : element -> result (list frame)) (float_repr : float -> string)
  (exchange_rates : gmap string float) (st st' : state) (r : result unit) :
  main sql_execute read_table float_repr exchange_rates st = (r, st') ->
  exists k,
    log st' = (log st ++ take k main_log_lines)%list /\
    (r = Ok tt <-> k = 8%nat) /\
    (4 <= k -> exists text, files st' = <[DEFAULT_CSV := text]> (files st))%nat /\
    (k < 4 -> files st' = files st)%nat.
Proof.
  unfold main. intros H.
  apply bind_inv in H as [(e & He & _) | (c & s1 & Hc & H)]; [discriminate He|].
  unfold connect in Hc. injection Hc as <- <-.
  apply bind_inv in H as [(e & He & _) | (u & s2 & H2 & H)]; [discriminate He|].
  unfold log_progress in H2. injection H2 as <- <-.
  apply bind_inv in H as [(e & He & ->) | (l1 & s3 & H3 & H)].
  { destruct (extract_state _ _ _ _ _ _ He) as (Hf & _ & _ & [Hl|Hl]);
      [main_case 1%nat | main_case 2%nat]. }
  destruct (extract_state _ _ _ _ _ _ H3) as (Hf3 & _ & _ & Hl3).
  apply bind_inv in H as [(e & He & ->) | (l2 & s4 & H4 & H)].
  { destruct (transform_state _ _ _ _ _ He) as (Hf & _ & _ & Hl). simpl in Hl.
    main_case 2%nat. }
  destruct (transform_state _ _ _ _ _ H4) as (Hf4 & _ & _ & Hl4). simpl in Hl4.
  apply bind_inv in H as [(e & He & ->) | (u5 & s5 & H5 & H)].
  { destruct (load_to_csv_state _ _ _ _ _ _ He) as (_ & _ & _ & Hl & Hf). main_case 3%nat. }
  destruct (load_to_csv_state _ _ _ _ _ _ H5) as (_ & _ & _ & Hl5 & text & Hf5).
  apply bind_inv in H as [(e & He & ->) | (u6 & s6 & H6 & H)].
  { destruct (load_to_db_state _ _ _ _ _ _ He) as (_ & Hf & _ & Hl). main_case 5%nat. }
  destruct (load_to_db_state _ _ _ _ _ _ H6) as (_ & Hf6 & _ & Hl6).
  apply bind_inv in H as [(e & He & ->) | (u7 & s7 & H7 & H)].
  { destruct (run_query_state _ _ _ _ _ _ He) as (_ & Hl & Hf & _). main_case 6%nat. }
  destruct (run_query_state _ _ _ _ _ _ H7) as (_ & Hl7 & Hf7 & _).
  apply bind_inv in H as [(e & He & ->) | (u8 & s8 & H8 & H)].
  { destruct (run_query_state _ _ _ _ _ _ He) as (_ & Hl & Hf & _). main_case 6%nat. }
  destruct (run_query_state _ _ _ _ _ _ H8) as (_ & Hl8 & Hf8 & _).
  apply bind_inv in H as [(e & He & ->) | (u9 & s9 & H9 & H)].
  { destruct (run_query_state _ _ _ _ _ _ He) as (_ & Hl & Hf & _). main_case 6%nat. }
  destruct (run_query_state _ _ _ _ _ _ H9) as (_ & Hl9 & Hf9 & _).
  apply bind_inv in H as [(e & He & ->) | (u10 & s10 & H10 & H)].
  { destruct (run_query_state _ _ _ _ _ _ He) as (_ & Hl & Hf & _). main_case 6%nat. }
  destruct (run_query_state _ _ _ _ _ _ H10) as (_ & Hl10 & Hf10 & _).
  apply bind_inv in H as [(e & He & _) | (u11 & s11 & H11 & H)]; [discriminate He|].
  unfold log_progress in H11, H. injection H11 as <- <-. injection H as <- <-.
  main_case 8%nat.
Qed.

(** X12: the whole script on a page whose first wikitable pandas reads
    as a table with a numeric market-cap column, with a rate file holding
    GBP, EUR and INR, with ./data/final_data.csv writable, and with an
    SQLite whose four queries run without raising and without changing
    the loaded database: the script completes, ./data/final_data.csv
    holds the CSV text of the transformed table, and the table
    Largest_banks of Banks.db holds that same table, every other table
    and database being left as it was. *)
Theorem main_end_to_end
  (sql_execute : database -> string -> result (database * list (list string)))
  (read_table : element -> result (list frame)) (float_repr : float -> string)
  (exchange_rates : gmap string float) (st : state) (r : response)
  (pre post : list element) (e : element) (df : frame) (more : list frame)
  (mc : column) (v : list float) (g eu i : float) :
  web st url_main = Some r ->
  ((400 <=? status_code r) && (status_code r <? 600))%Z = false ->
  resp_doc r = (pre ++ e :: post)%list ->
  (forall e', In e' pre -> tag_matches "table" default_attribs e' = false) ->
  tag_matches "table" default_attribs e = true ->
  read_table e = Ok (df :: more) ->
  lookup_col (columns df) MC_USD = Some mc -> col_floats mc = Some v ->
  exchange_rates !! "GBP" = Some g -> exchange_rates !! "EUR" = Some eu ->
  exchange_rates !! "INR" = Some i ->
  can_write st DEFAULT_CSV = true ->
  let conv r := ColFloat (map (fun y => np_round2 (y * r)%float) v) in
  let df1 := mkFrame (set_col (columns df) "MC_GBP_Billion" (conv g)) in
  let df2 := mkFrame (set_col (columns df1) "MC_EUR_Billion" (conv eu)) in
  let df3 := mkFrame (set_col (columns df2) "MC_INR_Billion" (conv i)) in
  let db := <["Largest_banks" := df3]> (default ∅ (dbs st !! "Banks.db")) in
  (forall q, In q main_queries -> exists rows, sql_execute db q = Ok (db, rows)) ->
  exists st',
    main sql_execute read_table float_repr exchange_rates st = (Ok tt, st') /\
    files st' = <[DEFAULT_CSV := string_of_list_ascii (to_csv_text float_repr df3)]> (files st) /\
    dbs st' !! "Banks.db" = Some db /\
    (forall n, n <> "Banks.db" -> dbs st' !! n = dbs st !! n).
Proof.
  intros Hweb Hst Hdoc Hpre He Hread Hmc Hv Hg Heu Hi Hw conv df1 df2 df3 db Hq.
  assert (Hdef : default ∅ (match dbs st !! "Banks.db" with
                            | Some _ => dbs st | None => <["Banks.db" := ∅]> (dbs st) end
                            !! "Banks.db") = default ∅ (dbs st !! "Banks.db"))
    by (destruct (dbs st !! "Banks.db") eqn:E; [by rewrite E | by rewrite lookup_insert_eq]).
  unfold main.
  erewrite bind_Ok; [|reflexivity]. cbv beta.
  erewrite bind_Ok; [|reflexivity]. cbv beta.
  match goal with |- context [bind (extract read_table url_main None) _ ?s] =>
    destruct (extract_Ok_first read_table s url_main None r pre post e df more
                Hweb Hst Hdoc Hpre He Hread) as (s3 & Hx & Hh3 & Hl3 & Hf3 & Hd3) end.
  pose proof (extract_can_write _ _ _ _ _ _ Hx) as Hw3.
  rewrite (bind_Ok _ _ _ _ _ Hx).
  assert (Hdf : heap s3 !! fresh (dom (heap st)) = Some df)
    by (rewrite Hh3; apply lookup_insert_eq).
  destruct (transform_Ok _ _ _ _ _ _ _ _ _ Hdf Hmc Hv Hg Heu Hi) as (s4 & Ht & Hh4 & _).
  destruct (transform_state _ _ _ _ _ Ht) as (Hf4 & Hd4 & _).
  pose proof (transform_can_write _ _ _ _ _ Ht) as Hw4.
  rewrite (bind_Ok _ _ _ _ _ Ht).
  assert (Hw4' : can_write s4 (resolve_output_path None) = true) by (rewrite Hw4, Hw3; exact Hw).
  rewrite (bind_Ok _ _ _ _ _ (load_to_csv_Ok _ _ _ _ _ Hh4 Hw4')).
  cbv beta. erewrite bind_Ok; [|apply load_to_db_Ok; exact Hh4]. cbv beta.
  set (db6 := <["Largest_banks" := df3]> (default ∅ (dbs s4 !! "Banks.db"))).
  assert (Edb : db6 = db) by (unfold db6, db; rewrite Hd4, Hd3; simpl; by rewrite Hdef).
  destruct (Hq query_1 ltac:(simpl; tauto)) as [r1 Hr1].
  destruct (Hq query_2 ltac:(simpl; tauto)) as [r2 Hr2].
  destruct (Hq query_3 ltac:(simpl; tauto)) as [r3 Hr3].
  destruct (Hq query_4 ltac:(simpl; tauto)) as [r4 Hr4].
  rewrite <- Edb in Hr1, Hr2, Hr3, Hr4.
  erewrite bind_Ok; [|apply (run_query_readonly _ _ _ db6 r1); [apply lookup_insert_eq|exact Hr1]].
  erewrite bind_Ok; [|apply (run_query_readonly _ _ _ db6 r2); [apply lookup_insert_eq|exact Hr2]].
  erewrite bind_Ok; [|apply (run_query_readonly _ _ _ db6 r3); [apply lookup_insert_eq|exact Hr3]].
  erewrite bind_Ok; [|apply (run_query_readonly _ _ _ db6 r4); [apply lookup_insert_eq|exact Hr4]].
  erewrite bind_Ok; [|reflexivity].
  eexists. split; [reflexivity|]. simpl.
  rewrite Hf4, Hd4, Hf3, Hd3. simpl. split; [reflexivity|].
  split; [rewrite lookup_insert_eq; f_equal; unfold db; by rewrite Hdef|].
  intros n Hn. rewrite lookup_insert_ne by congruence.
  destruct (dbs st !! "Banks.db"); [done|]. by rewrite lookup_insert_ne by congruence.
Qed.

(** X13: when the page cannot be fetched (no connection, or an HTTP
    error status), the script raises after its first progress line: no
    other line is logged, no file is written, no object is created, and
    the only trace in the databases is Banks.db, opened by
    [sqlite3.connect] and created empty if it was absent. *)
Theorem main_fetch_failure
  (sql_execute : database -> string -> result (database * list (list string)))
  (read_table : element -> result (list frame)) (float_repr : float -> string)
  (exchange_rates : gmap string float) (st : state) :
  (web st url_main = None \/
   exists r, web st url_main = Some r /\ (400 <= status_code r < 600)%Z) ->
  exists e st',
    main sql_execute read_table float_repr exchange_rates st = (Err e, st') /\
    log st' = (log st ++ ["Preliminaries complete. Initiating ETL process"])%list /\
    files st' = files st /\ heap st' = heap st /\
    dbs st' !! "Banks.db" = Some (default ∅ (dbs st !! "Banks.db")) /\
    (forall n, n <> "Banks.db" -> dbs st' !! n = dbs st !! n).
Proof.
  intros Hfetch. unfold main.
  erewrite bind_Ok; [|reflexivity]. cbv beta.
  erewrite bind_Ok; [|reflexivity]. cbv beta.
  match goal with |- context [bind (extract read_table url_main None) _ ?s] =>
    assert (Hx : exists e, extract read_table url_main None s = (Err e, s)) end.
  { unfold extract, bind, requests_get. simpl.
    destruct Hfetch as [Hw|(r & Hw & Hs)]; rewrite Hw; [eauto|].
    unfold raise_for_status.
    replace ((400 <=? status_code r) && (status_code r <? 600))%Z with true
      by (symmetry; apply andb_true_iff; split; [apply Z.leb_le|apply Z.ltb_lt]; lia).
    simpl. eauto. }
  destruct Hx as [e Hx]. rewrite (bind_Err _ _ _ _ _ Hx).
  exists e. eexists. split; [reflexivity|]. simpl.
  split; [done|]. split; [done|]. split; [done|].
  destruct (dbs st !! "Banks.db") eqn:E.
  - split; [done|]. done.
  - split; [by rewrite lookup_insert_eq|]. intros n Hn. by rewrite lookup_insert_ne by congruence.
Qed.

(** ** Witnesses *)

Lemma extract_connection_error_witness :
  extract read_X url_main None (state_with frame_X)
  = (Err (ConnectionError url_main), state_with frame_X).
Proof. apply extract_connection_error. reflexivity. Defined.

Lemma extract_http_error_witness :
  extract read_X url_main None (state_page page_404)
  = (Err (HTTPError 404), state_page page_404).
Proof. apply (extract_http_error _ _ _ _ page_404); [reflexivity | simpl; lia]. Defined.

Lemma extract_first_match_witness :
  exists l st', extract read_X url_main None (state_page page_with_tables) = (Ok l, st') /\
    heap st' !! l = Some frame_X /\
    log st' = ["Data extraction complete. Initiating Transformation process"].
Proof.
  destruct (extract_first_match read_X (state_page page_with_tables) url_main None
              page_with_tables [mkElement "table" [("class", AVList ["infobox"])] []]
              [mkElement "table" [("class", AVList ["wikitable"])] []] wiki_table frame_X [])
    as (st' & H & Hh & Hl & _);
    [reflexivity | reflexivity | reflexivity
    | intros e' [<-|[]]; reflexivity | reflexivity | reflexivity |].
  exists (fresh (dom (heap (state_page page_with_tables)))), st'.
  split; [exact H|]. split; [rewrite Hh; apply lookup_insert_eq | exact Hl].
Defined.

Lemma transform_missing_market_cap_witness :
  exists st', transform loc1 rates_X (state_with frame_no_mc) = (Err (KeyError MC_USD), st') /\
    log st' = [].
Proof. apply (transform_missing_market_cap (state_with frame_no_mc) loc1 frame_no_mc rates_X); reflexivity. Defined.

Lemma transform_text_market_cap_witness :
  exists st', transform loc1 rates_X (state_with frame_text)
    = (Err (TypeError "can't multiply sequence by non-int of type 'float'"), st') /\
    log st' = [].
Proof.
  apply (transform_text_market_cap (state_with frame_text) loc1 frame_text rates_X "1,234.5" [] 0.8%float);
    reflexivity.
Defined.

Lemma transform_effects_witness :
  files (snd (transform loc1 rates_X (state_with frame_X))) = ∅ /\
  log (snd (transform loc1 rates_X (state_with frame_X)))
  = match fst (transform loc1 rates_X (state_with frame_X)) with
    | Ok _ => ["Data transformation complete. Initiating Loading process"]
    | Err _ => []
    end.
Proof.
  destruct (transform_effects (state_with frame_X) _ loc1 rates_X _ (surjective_pairing _))
    as (Hf & _ & Hl).
  split; [exact Hf | exact Hl].
Defined.

Lemma transform_idempotent_witness :
  exists l1 st1 df1 l2 st2,
    transform loc1 rates_X (state_with frame_X) = (Ok l1, st1) /\ heap st1 !! l1 = Some df1 /\
    transform l1 rates_X st1 = (Ok l2, st2) /\ heap st2 !! l2 = Some df1.
Proof.
  apply (transform_idempotent (state_with frame_X) loc1 frame_X rates_X (ColInt [100%Z]) [int64_to_float 100]
           0.8%float 0.93%float 82.95%float); reflexivity.
Defined.

Lemma load_to_csv_effects_witness :
  (exists st', load_to_csv repr_stub loc1 None (state_with frame_X) = (Ok tt, st') /\
     files st' !! DEFAULT_CSV = Some (string_of_list_ascii (to_csv_text repr_stub frame_X))) /\
  load_to_csv repr_stub loc1 (Some "") (state_no_write frame_X)
  = (Err (OSError DEFAULT_CSV), state_no_write frame_X).
Proof.
  pose proof (load_to_csv_effects repr_stub (state_with frame_X) loc1 frame_X None eq_refl)
    as H.
  pose proof (load_to_csv_effects repr_stub (state_no_write frame_X) loc1 frame_X (Some "")
                eq_refl) as H'.
  cbv zeta in H, H'. destruct H as [H _]. destruct H' as [_ H'].
  split; [|exact (H' eq_refl)].
  destruct (H eq_refl) as (st' & Hrun & Hf & _). exists st'. split; [exact Hrun | exact Hf].
Defined.

Lemma load_to_db_effects_witness :
  exists st' db', load_to_db loc1 None None (state_with frame_X) = (Ok tt, st') /\
    dbs st' !! "Banks.db" = Some db' /\ db' !! "Largest_banks" = Some frame_X.
Proof.
  pose proof (load_to_db_effects (state_with frame_X) loc1 frame_X None None eq_refl) as H.
  cbv zeta in H. destruct H as (st' & db' & H & Hd & Ht & _).
  exists st', db'. split; [exact H|]. split; [exact Hd | exact Ht].
Defined.

Lemma run_query_effects_witness :
  log (snd (run_query sql_readonly query_1 None state_main)) = [] /\
  files (snd (run_query sql_readonly query_1 None state_main)) = ∅.
Proof.
  destruct (run_query_effects sql_readonly query_1 None state_main _ _ (surjective_pairing _))
    as (Hl & Hf & _).
  split; [exact Hl | exact Hf].
Defined.

Lemma main_log_prefix_witness :
  exists k,
    log (snd (main sql_readonly read_X repr_stub rates_X state_main)) = take k main_log_lines /\
    (fst (main sql_readonly read_X repr_stub rates_X state_main) = Ok tt <-> k = 8%nat).
Proof.
  destruct (main_log_prefix sql_readonly read_X repr_stub rates_X state_main _ _
              (surjective_pairing _)) as (k & Hl & Hk & _).
  exists k. split; [exact Hl | exact Hk].
Defined.

Lemma main_end_to_end_witness :
  exists st' df',
    main sql_readonly read_X repr_stub rates_X state_main = (Ok tt, st') /\
    files st' !! DEFAULT_CSV = Some (string_of_list_ascii (to_csv_text repr_stub df')) /\
    dbs st' !! "Banks.db" = Some (<["Largest_banks" := df']> ∅).
Proof.
  pose proof (main_end_to_end sql_readonly read_X repr_stub rates_X state_main page_with_tables
                [mkElement "table" [("class", AVList ["infobox"])] []]
                [mkElement "table" [("class", AVList ["wikitable"])] []] wiki_table frame_X []
                (ColInt [100%Z]) [int64_to_float 100] 0.8%float 0.93%float 82.95%float)
    as H.
  cbv zeta in H.
  destruct H as (st' & H & Hf & Hd & _);
    [vm_compute; reflexivity | reflexivity | reflexivity
    | intros e' [<-|[]]; reflexivity | reflexivity | reflexivity | reflexivity
    | reflexivity | vm_compute; reflexivity | vm_compute; reflexivity
    | vm_compute; reflexivity | reflexivity | intros q _; exists []; reflexivity |].
  eexists st', _. split; [exact H|]. split; [rewrite Hf; apply lookup_insert_eq | exact Hd].
Defined.

Lemma main_fetch_failure_witness :
  exists e st', main sql_readonly read_X repr_stub rates_X (state_with frame_X) = (Err e, st') /\
    log st' = ["Preliminaries complete. Initiating ETL process"] /\ files st' = ∅.
Proof.
  destruct (main_fetch_failure sql_readonly read_X repr_stub rates_X (state_with frame_X))
    as (e & st' & H & Hl & Hf & _); [left; reflexivity|].
  exists e, st'. split; [exact H|]. split; [exact Hl | exact Hf].
Defined.
